(** * Bytebase: the task check run store and the SQL task executor

    A shallow embedding of [store/task_check_run.go] (the service that
    creates, finds and patches rows of the [task_check_run] table) and of
    [SqlTaskExecutor.RunOnce] (the executor of schema update tasks).

    The table is a list of rows in insertion order.  A statement is a list
    of clauses with [?] placeholders and a list of arguments, bound in
    order, as [database/sql] does.  The database answers every statement:
    connection failures are not part of the model.  A transaction works on
    a copy of the table; [Commit] publishes the copy, [Rollback] drops it.
    Calls of the service are taken one at a time, each transaction run to
    its end before the next call starts.

    The executor's collaborators (the JSON decoder, the file name parser,
    the server and the database driver) are a record of functions, and
    [RunOnce] returns, with its two results, the calls it made in order. *)

From Stdlib Require Import ZArith List String Bool Lia.
Import ListNotations.
Local Open Scope string_scope.
Local Open Scope list_scope.
Local Open Scope Z_scope.

(** ** Results of fallible calls *)

Module Common.

(** The codes of [common.Error] that the store uses. *)
Inductive Code : Type :=
| ENOTFOUND
| ECONFLICT.

(** What a Go [error] value can be in these files.  The [Message] of a
    [common.Error] is formatted text and is not kept. *)
Inductive Error : Type :=
| CommonError (code : Code)
| SqlError (msg : string)
| IndexOutOfRange.

Inductive Result (A : Type) : Type :=
| Ok (a : A)
| Err (e : Error).

Arguments Ok {A} a.
Arguments Err {A} e.

End Common.

Import Common.

(** ** The api package: the types the store exchanges *)

Module Api.

(** Modelled from the spec: the api package that declares
    [TaskCheckRunStatus] is missing; the spec gives the status of a
    TaskCheckRun as one of Running, Done, Failed. *)
Inductive TaskCheckRunStatus : Type :=
| TaskCheckRunRunning
| TaskCheckRunDone
| TaskCheckRunFailed.

Definition TaskCheckRunStatus_eqb (a b : TaskCheckRunStatus) : bool :=
  match a, b with
  | TaskCheckRunRunning, TaskCheckRunRunning => true
  | TaskCheckRunDone, TaskCheckRunDone => true
  | TaskCheckRunFailed, TaskCheckRunFailed => true
  | _, _ => false
  end.

Definition TaskCheckType : Type := string.

(** The twelve columns that every statement of the store scans. *)
Record TaskCheckRun : Type := {
  ID : Z;
  CreatorId : Z;
  CreatedTs : Z;
  UpdaterId : Z;
  UpdatedTs : Z;
  TaskId : Z;
  Name : string;
  Status : TaskCheckRunStatus;
  Type_ : TaskCheckType;
  Comment : string;
  Result_ : string;
  Payload : string
}.

Record TaskCheckRunCreate : Type := {
  create_CreatorId : Z;
  create_TaskId : Z;
  create_Name : string;
  create_Type : TaskCheckType;
  create_Comment : string;
  create_Payload : string;
  create_SkipIfAlreadyDone : bool
}.

(** A nil pointer is [None]. *)
Record TaskCheckRunFind : Type := {
  find_ID : option Z;
  find_TaskId : option Z;
  find_StatusList : option (list TaskCheckRunStatus)
}.

Record TaskCheckRunStatusPatch : Type := {
  patch_ID : option Z;
  patch_UpdaterId : Z;
  patch_Status : TaskCheckRunStatus;
  patch_Comment : string;
  patch_Result : string
}.

End Api.

Import Api.

(** ** The task_check_run table and its statements *)

Module SqlTable.

(** An argument of a statement. *)
Inductive Value : Type :=
| VInt (z : Z)
| VText (s : string)
| VStatus (s : TaskCheckRunStatus).

(** The columns a statement of this file writes. *)
Inductive Column : Type :=
| creator_id
| updater_id
| task_id
| name
| status
| type
| comment
| result
| payload.

(** One conjunct of a WHERE clause as the store writes it; each [?]
    takes the next argument.  A list of no marks, [`status` in ()], is
    read as SQLite reads it: no row passes. *)
Inductive Clause : Type :=
| OneEqOne                  (* 1 = 1 *)
| IdEq                      (* id = ? *)
| TaskIdEq                  (* task_id = ? *)
| StatusIn (marks : nat).   (* `status` in (?,...,?) *)

(** A conjunct with its arguments bound. *)
Inductive Cond : Type :=
| CTrue
| CId (v : Z)
| CTaskId (v : Z)
| CStatus (l : list TaskCheckRunStatus).

(** What the columns that an INSERT leaves to the database receive: the
    schema with its column defaults is not part of these files.  An
    UPDATE writes the columns of its SET clause and no other. *)
Record Backend : Type := {
  now : Z;
  result_default : string
}.

Definition Table : Type := list TaskCheckRun.

Fixpoint take_statuses (n : nat) (args : list Value)
  : option (list TaskCheckRunStatus * list Value) :=
  match n with
  | O => Some ([], args)
  | S n' =>
      match args with
      | VStatus s :: rest =>
          match take_statuses n' rest with
          | Some (l, rest') => Some (s :: l, rest')
          | None => None
          end
      | _ => None
      end
  end.

Definition bind_clause (c : Clause) (args : list Value)
  : option (Cond * list Value) :=
  match c with
  | OneEqOne => Some (CTrue, args)
  | IdEq =>
      match args with
      | VInt v :: rest => Some (CId v, rest)
      | _ => None
      end
  | TaskIdEq =>
      match args with
      | VInt v :: rest => Some (CTaskId v, rest)
      | _ => None
      end
  | StatusIn n =>
      match take_statuses n args with
      | Some (l, rest) => Some (CStatus l, rest)
      | None => None
      end
  end.

(** Binds the clauses left to right; every argument must be used. *)
Fixpoint bind_where (where_ : list Clause) (args : list Value)
  : option (list Cond) :=
  match where_ with
  | [] => match args with [] => Some [] | _ => None end
  | c :: cs =>
      match bind_clause c args with
      | Some (k, rest) =>
          match bind_where cs rest with
          | Some ks => Some (k :: ks)
          | None => None
          end
      | None => None
      end
  end.

Definition holds (k : Cond) (r : TaskCheckRun) : bool :=
  match k with
  | CTrue => true
  | CId v => ID r =? v
  | CTaskId v => TaskId r =? v
  | CStatus l => existsb (TaskCheckRunStatus_eqb (Status r)) l
  end.

(** The conjunction [c1 AND c2 AND ...]. *)
Definition holds_all (ks : list Cond) (r : TaskCheckRun) : bool :=
  forallb (fun k => holds k r) ks.

(** SELECT (the twelve columns) FROM task_check_run WHERE ... *)
Definition select (t : Table) (where_ : list Clause) (args : list Value)
  : Result (list TaskCheckRun) :=
  match bind_where where_ args with
  | Some ks => Ok (filter (holds_all ks) t)
  | None => Err (SqlError "bad arguments")
  end.

(** [col = v]: the write of one column, refused on a value of the wrong
    kind. *)
Definition assign (c : Column) (v : Value) (r : TaskCheckRun)
  : option TaskCheckRun :=
  match c, v with
  | creator_id, VInt z =>
      Some {| ID := ID r; CreatorId := z; CreatedTs := CreatedTs r;
              UpdaterId := UpdaterId r; UpdatedTs := UpdatedTs r;
              TaskId := TaskId r; Name := Name r; Status := Status r;
              Type_ := Type_ r; Comment := Comment r;
              Result_ := Result_ r; Payload := Payload r |}
  | updater_id, VInt z =>
      Some {| ID := ID r; CreatorId := CreatorId r; CreatedTs := CreatedTs r;
              UpdaterId := z; UpdatedTs := UpdatedTs r;
              TaskId := TaskId r; Name := Name r; Status := Status r;
              Type_ := Type_ r; Comment := Comment r;
              Result_ := Result_ r; Payload := Payload r |}
  | task_id, VInt z =>
      Some {| ID := ID r; CreatorId := CreatorId r; CreatedTs := CreatedTs r;
              UpdaterId := UpdaterId r; UpdatedTs := UpdatedTs r;
              TaskId := z; Name := Name r; Status := Status r;
              Type_ := Type_ r; Comment := Comment r;
              Result_ := Result_ r; Payload := Payload r |}
  | name, VText s =>
      Some {| ID := ID r; CreatorId := CreatorId r; CreatedTs := CreatedTs r;
              UpdaterId := UpdaterId r; UpdatedTs := UpdatedTs r;
              TaskId := TaskId r; Name := s; Status := Status r;
              Type_ := Type_ r; Comment := Comment r;
              Result_ := Result_ r; Payload := Payload r |}
  | status, VStatus s =>
      Some {| ID := ID r; CreatorId := CreatorId r; CreatedTs := CreatedTs r;
              UpdaterId := UpdaterId r; UpdatedTs := UpdatedTs r;
              TaskId := TaskId r; Name := Name r; Status := s;
              Type_ := Type_ r; Comment := Comment r;
              Result_ := Result_ r; Payload := Payload r |}
  | type, VText s =>
      Some {| ID := ID r; CreatorId := CreatorId r; CreatedTs := CreatedTs r;
              UpdaterId := UpdaterId r; UpdatedTs := UpdatedTs r;
              TaskId := TaskId r; Name := Name r; Status := Status r;
              Type_ := s; Comment := Comment r;
              Result_ := Result_ r; Payload := Payload r |}
  | comment, VText s =>
      Some {| ID := ID r; CreatorId := CreatorId r; CreatedTs := CreatedTs r;
              UpdaterId := UpdaterId r; UpdatedTs := UpdatedTs r;
              TaskId := TaskId r; Name := Name r; Status := Status r;
              Type_ := Type_ r; Comment := s;
              Result_ := Result_ r; Payload := Payload r |}
  | result, VText s =>
      Some {| ID := ID r; CreatorId := CreatorId r; CreatedTs := CreatedTs r;
              UpdaterId := UpdaterId r; UpdatedTs := UpdatedTs r;
              TaskId := TaskId r; Name := Name r; Status := Status r;
              Type_ := Type_ r; Comment := Comment r;
              Result_ := s; Payload := Payload r |}
  | payload, VText s =>
      Some {| ID := ID r; CreatorId := CreatorId r; CreatedTs := CreatedTs r;
              UpdaterId := UpdaterId r; UpdatedTs := UpdatedTs r;
              TaskId := TaskId r; Name := Name r; Status := Status r;
              Type_ := Type_ r; Comment := Comment r;
              Result_ := Result_ r; Payload := s |}
  | _, _ => None
  end.

(** The assignments [c1 = v1, c2 = v2, ...] applied left to right. *)
Fixpoint assign_all (cvs : list (Column * Value)) (r : TaskCheckRun)
  : option TaskCheckRun :=
  match cvs with
  | [] => Some r
  | (c, v) :: rest =>
      match assign c v r with
      | Some r' => assign_all rest r'
      | None => None
      end
  end.

(** A column of an INSERT takes a placeholder or a literal. *)
Inductive Slot : Type :=
| Mark                 (* ? *)
| Lit (v : Value).     (* 'RUNNING' *)

(** Pairs the columns with their values, taking one argument per [?];
    the rest of the arguments comes back. *)
Fixpoint bind_slots (cols : list Column) (slots : list Slot)
         (args : list Value) : option (list (Column * Value) * list Value) :=
  match cols, slots with
  | [], [] => Some ([], args)
  | c :: cols', Mark :: slots' =>
      match args with
      | a :: args' =>
          match bind_slots cols' slots' args' with
          | Some (cvs, rest) => Some ((c, a) :: cvs, rest)
          | None => None
          end
      | [] => None
      end
  | c :: cols', Lit v :: slots' =>
      match bind_slots cols' slots' args with
      | Some (cvs, rest) => Some ((c, v) :: cvs, rest)
      | None => None
      end
  | _, _ => None
  end.

(** The key of the next row: one more than the largest key. *)
Definition next_id (t : Table) : Z :=
  fold_right (fun r m => Z.max (ID r) m) 0 t + 1.

(** The row an INSERT starts from, before its columns are written. *)
Definition blank (b : Backend) (t : Table) : TaskCheckRun :=
  {| ID := next_id t; CreatorId := 0; CreatedTs := now b;
     UpdaterId := 0; UpdatedTs := now b; TaskId := 0; Name := "";
     Status := TaskCheckRunRunning; Type_ := ""; Comment := "";
     Result_ := result_default b; Payload := "" |}.

(** INSERT INTO task_check_run (cols) VALUES (slots) RETURNING ...:
    the new table and the returned rows. *)
Definition insert (b : Backend) (t : Table) (cols : list Column)
           (slots : list Slot) (args : list Value)
  : Result (Table * list TaskCheckRun) :=
  match bind_slots cols slots args with
  | Some (cvs, []) =>
      match assign_all cvs (blank b t) with
      | Some r => Ok (t ++ [r], [r])
      | None => Err (SqlError "bad arguments")
      end
  | _ => Err (SqlError "bad arguments")
  end.

(** Rewrites the rows that satisfy the conditions, in place; [None] when
    an assignment is refused. *)
Fixpoint update_rows (cvs : list (Column * Value))
         (ks : list Cond) (t : Table) : option (Table * list TaskCheckRun) :=
  match t with
  | [] => Some ([], [])
  | r :: t' =>
      match update_rows cvs ks t' with
      | Some (t'', out) =>
          if holds_all ks r then
            match assign_all cvs r with
            | Some r' => Some (r' :: t'', r' :: out)
            | None => None
            end
          else Some (r :: t'', out)
      | None => None
      end
  end.

(** UPDATE task_check_run SET (set) WHERE (where) RETURNING ...: the
    arguments of SET come first, then those of WHERE. *)
Definition update (t : Table) (set : list Column)
           (where_ : list Clause) (args : list Value)
  : Result (Table * list TaskCheckRun) :=
  match bind_slots set (map (fun _ => Mark) set) args with
  | Some (cvs, rest) =>
      match bind_where where_ rest with
      | Some ks =>
          match update_rows cvs ks t with
          | Some res => Ok res
          | None => Err (SqlError "bad arguments")
          end
      | None => Err (SqlError "bad arguments")
      end
  | None => Err (SqlError "bad arguments")
  end.

(** [row.Next(); row.Scan(...)]: the first returned row; scanning an
    empty result is an error. *)
Definition scan_first (rows : list TaskCheckRun) : Result TaskCheckRun :=
  match rows with
  | r :: _ => Ok r
  | [] => Err (SqlError "sql: Rows are closed")
  end.

End SqlTable.

(** ** store/task_check_run.go *)

Module Store.

Import SqlTable.

(** [s.l.Warn("Found %d task check run, expect at most 1", task_id,
    task_check_type)]. *)
Inductive LogEntry : Type :=
| Warn (found : nat) (task_id : Z) (task_check_type : TaskCheckType).

(** What a call of the service leaves behind: the committed table, the
    lines it logged and what it returned. *)
Record Outcome : Type := {
  table : Table;
  logged : list LogEntry;
  returned : Result TaskCheckRun
}.

(** The loop of [CreateTaskCheckRunIfNeeded] under [SkipIfAlreadyDone]:
    [inl] is the run returned from inside the loop, [inr] the count
    after it. *)
Fixpoint rangeTaskCheckRunList (l : list TaskCheckRun) (runningCount : nat)
  : TaskCheckRun + nat :=
  match l with
  | [] => inr runningCount
  | taskCheckRun :: rest =>
      match Status taskCheckRun with
      | TaskCheckRunDone => inl taskCheckRun
      | TaskCheckRunRunning => rangeTaskCheckRunList rest (S runningCount)
      | TaskCheckRunFailed => rangeTaskCheckRunList rest runningCount
      end
  end.

(** [taskCheckRunList[0]]. *)
Definition index0 (l : list TaskCheckRun) : Result TaskCheckRun :=
  match l with
  | r :: _ => Ok r
  | [] => Err IndexOutOfRange
  end.

Section Service.

(** [FormatError] is declared elsewhere in the store package. *)
Variable FormatError : Error -> Error.

Definition findTaskCheckRunList (tx : Table) (find : TaskCheckRunFind)
  : Result (list TaskCheckRun) :=
  let where_ := [OneEqOne] in
  let args := @nil Value in
  let '(where_, args) :=
    match find_ID find with
    | Some v => (where_ ++ [IdEq], args ++ [VInt v])
    | None => (where_, args)
    end in
  let '(where_, args) :=
    match find_TaskId find with
    | Some v => (where_ ++ [TaskIdEq], args ++ [VInt v])
    | None => (where_, args)
    end in
  let '(where_, args) :=
    match find_StatusList find with
    | Some v =>
        let '(list_, args) :=
          fold_left
            (fun '(list_, args) status_ =>
               (list_ ++ ["?"], args ++ [VStatus status_]))
            v (@nil string, args) in
        (where_ ++ [StatusIn (List.length list_)], args)
    | None => (where_, args)
    end in
  match select tx where_ args with
  | Ok list_ => Ok list_
  | Err e => Err (FormatError e)
  end.

Definition FindTaskCheckRunListTx (tx : Table) (find : TaskCheckRunFind)
  : Result (list TaskCheckRun) :=
  match findTaskCheckRunList tx find with
  | Err e => Err e
  | Ok list_ => Ok list_
  end.

(** BeginTx, the query, and the deferred Rollback of a read. *)
Definition FindTaskCheckRunList (db : Table) (find : TaskCheckRunFind)
  : Result (list TaskCheckRun) :=
  let tx := db in
  match findTaskCheckRunList tx find with
  | Err e => Err e
  | Ok list_ => Ok list_
  end.

Definition FindTaskCheckRunTx (tx : Table) (find : TaskCheckRunFind)
  : Result TaskCheckRun :=
  match findTaskCheckRunList tx find with
  | Err e => Err e
  | Ok list_ =>
      if (List.length list_ =? 0)%nat then Err (CommonError ENOTFOUND)
      else if (1 <? List.length list_)%nat then Err (CommonError ECONFLICT)
      else index0 list_
  end.

(** The transaction's table after the statement, and the scanned row. *)
Definition CreateTaskCheckRunTx (b : Backend) (tx : Table)
           (create : TaskCheckRunCreate) : Table * Result TaskCheckRun :=
  match
    insert b tx
      [creator_id; updater_id; task_id; name; status; type; comment;
       payload]
      [Mark; Mark; Mark; Mark; Lit (VStatus TaskCheckRunRunning); Mark;
       Mark; Mark]
      [VInt (create_CreatorId create);
       VInt (create_CreatorId create);
       VInt (create_TaskId create);
       VText (create_Name create);
       VText (create_Type create);
       VText (create_Comment create);
       VText (create_Payload create)]
  with
  | Err e => (tx, Err (FormatError e))
  | Ok (tx', row) =>
      match scan_first row with
      | Err e => (tx', Err (FormatError e))
      | Ok taskCheckRun => (tx', Ok taskCheckRun)
      end
  end.

Definition CreateTaskCheckRunIfNeeded (b : Backend) (db : Table)
           (create : TaskCheckRunCreate) : Outcome :=
  let tx := db in
  let statusList := [TaskCheckRunRunning] in
  let statusList :=
    if create_SkipIfAlreadyDone create
    then statusList ++ [TaskCheckRunDone]
    else statusList in
  let taskCheckRunFind :=
    {| find_ID := None;
       find_TaskId := Some (create_TaskId create);
       find_StatusList := Some statusList |} in
  match FindTaskCheckRunListTx tx taskCheckRunFind with
  | Err e => {| table := db; logged := []; returned := Err e |}
  | Ok taskCheckRunList =>
      match
        (if create_SkipIfAlreadyDone create
         then rangeTaskCheckRunList taskCheckRunList 0
         else inr (List.length taskCheckRunList))
      with
      | inl taskCheckRun =>
          {| table := db; logged := []; returned := Ok taskCheckRun |}
      | inr runningCount =>
          if (0 <? runningCount)%nat then
            {| table := db;
               logged :=
                 if (1 <? runningCount)%nat
                 then [Warn (List.length taskCheckRunList)
                         (create_TaskId create) (create_Type create)]
                 else [];
               returned := index0 taskCheckRunList |}
          else
            match CreateTaskCheckRunTx b tx create with
            | (_, Err e) =>
                {| table := db; logged := []; returned := Err e |}
            | (tx', Ok taskCheckRun) =>
                {| table := tx'; logged := [];
                   returned := Ok taskCheckRun |}
            end
      end
  end.

Definition PatchTaskCheckRunStatusTx (tx : Table)
           (patch : TaskCheckRunStatusPatch)
  : Table * Result TaskCheckRun :=
  let '(set, args) := ([updater_id], [VInt (patch_UpdaterId patch)]) in
  let '(set, args) :=
    (set ++ [status], args ++ [VStatus (patch_Status patch)]) in
  let '(set, args) :=
    (set ++ [comment], args ++ [VText (patch_Comment patch)]) in
  let '(set, args) :=
    (set ++ [result], args ++ [VText (patch_Result patch)]) in
  let where_ := [OneEqOne] in
  let '(where_, args) :=
    match patch_ID patch with
    | Some v => (where_ ++ [IdEq], args ++ [VInt v])
    | None => (where_, args)
    end in
  match update tx set where_ args with
  | Err e => (tx, Err (FormatError e))
  | Ok (tx', row) =>
      match scan_first row with
      | Err e => (tx', Err (FormatError e))
      | Ok taskCheckRun => (tx', Ok taskCheckRun)
      end
  end.

Definition PatchTaskCheckRunStatus (db : Table)
           (patch : TaskCheckRunStatusPatch) : Outcome :=
  let tx := db in
  match PatchTaskCheckRunStatusTx tx patch with
  | (_, Err e) =>
      {| table := db; logged := []; returned := Err (FormatError e) |}
  | (tx', Ok taskCheckRun) =>
      {| table := tx'; logged := []; returned := Ok taskCheckRun |}
  end.

(** *** Sequences of registry operations *)

Inductive Op : Type :=
| OpCreate (b : Backend) (create : TaskCheckRunCreate)
| OpPatch (patch : TaskCheckRunStatusPatch).

Definition step (db : Table) (op : Op) : Table :=
  match op with
  | OpCreate b create => table (CreateTaskCheckRunIfNeeded b db create)
  | OpPatch patch => table (PatchTaskCheckRunStatus db patch)
  end.

Definition run (db : Table) (ops : list Op) : Table :=
  fold_left step ops db.

End Service.

(** An operation that does not write the status Running over a run. *)
Definition settles (op : Op) : Prop :=
  match op with
  | OpCreate _ _ => True
  | OpPatch patch => patch_Status patch <> TaskCheckRunRunning
  end.

(** The Running runs of a task and a check type. *)
Definition running_of (taskId : Z) (ty : TaskCheckType) (t : Table)
  : list TaskCheckRun :=
  filter
    (fun r =>
       TaskCheckRunStatus_eqb (Status r) TaskCheckRunRunning
       && (TaskId r =? taskId) && String.eqb (Type_ r) ty)
    t.

(** The Running runs of a task, whatever their type. *)
Definition running_of_task (taskId : Z) (t : Table) : list TaskCheckRun :=
  filter
    (fun r =>
       TaskCheckRunStatus_eqb (Status r) TaskCheckRunRunning
       && (TaskId r =? taskId))
    t.

Definition no_running (t : Table) : Prop :=
  forall r, In r t -> Status r <> TaskCheckRunRunning.

(** The filter of a find, read field by field. *)
Definition matches (find : TaskCheckRunFind) (r : TaskCheckRun) : bool :=
  match find_ID find with Some v => ID r =? v | None => true end
  && match find_TaskId find with Some v => TaskId r =? v | None => true end
  && match find_StatusList find with
     | Some l => existsb (TaskCheckRunStatus_eqb (Status r)) l
     | None => true
     end.

(** The find that [CreateTaskCheckRunIfNeeded] builds from a create. *)
Definition taskCheckRunFind (create : TaskCheckRunCreate) : TaskCheckRunFind :=
  {| find_ID := None;
     find_TaskId := Some (create_TaskId create);
     find_StatusList :=
       Some (if create_SkipIfAlreadyDone create
             then [TaskCheckRunRunning; TaskCheckRunDone]
             else [TaskCheckRunRunning]) |}.

(** The row the INSERT of [CreateTaskCheckRunTx] adds to a table. *)
Definition inserted (b : Backend) (t : Table) (create : TaskCheckRunCreate)
  : TaskCheckRun :=
  {| ID := next_id t;
     CreatorId := create_CreatorId create;
     CreatedTs := now b;
     UpdaterId := create_CreatorId create;
     UpdatedTs := now b;
     TaskId := create_TaskId create;
     Name := create_Name create;
     Status := TaskCheckRunRunning;
     Type_ := create_Type create;
     Comment := create_Comment create;
     Result_ := result_default b;
     Payload := create_Payload create |}.

(** A row after the UPDATE of [PatchTaskCheckRunStatusTx] wrote it. *)
Definition patched (patch : TaskCheckRunStatusPatch) (r : TaskCheckRun)
  : TaskCheckRun :=
  {| ID := ID r;
     CreatorId := CreatorId r;
     CreatedTs := CreatedTs r;
     UpdaterId := patch_UpdaterId patch;
     UpdatedTs := UpdatedTs r;
     TaskId := TaskId r;
     Name := Name r;
     Status := patch_Status patch;
     Type_ := Type_ r;
     Comment := patch_Comment patch;
     Result_ := patch_Result patch;
     Payload := Payload r |}.

(** The rows the WHERE clause of a patch selects. *)
Definition addressed (patch : TaskCheckRunStatusPatch) (r : TaskCheckRun)
  : bool :=
  match patch_ID patch with
  | Some v => ID r =? v
  | None => true
  end.

Definition is_running (r : TaskCheckRun) : bool :=
  TaskCheckRunStatus_eqb (Status r) TaskCheckRunRunning.

End Store.

(** ** The db package, as far as the executor uses it *)

Module Db.

(** Modelled from the spec: the db package that declares
    [MigrationType] and [MigrationInfo] is missing; the spec gives the
    kinds Baseline and Migrate, the generic kind Sql, and the fields
    version and author. *)
Inductive MigrationType : Type :=
| Baseline
| Migrate
| Sql.

Definition MigrationType_eqb (a b : MigrationType) : bool :=
  match a, b with
  | Baseline, Baseline => true
  | Migrate, Migrate => true
  | Sql, Sql => true
  | _, _ => false
  end.

Record MigrationInfo : Type := {
  mi_Version : string;
  mi_Type : MigrationType;
  mi_Creator : string
}.

(** [mi.Creator = c]. *)
Definition set_Creator (mi : MigrationInfo) (c : string) : MigrationInfo :=
  {| mi_Version := mi_Version mi; mi_Type := mi_Type mi; mi_Creator := c |}.

Record ConnectionConfig : Type := {
  cfg_Username : string;
  cfg_Password : string;
  cfg_Host : string;
  cfg_Port : string;
  cfg_Database : string
}.

End Db.

(** ** server/sql_task_executor.go *)

Module Server.

Import Db.

Record FileCommit : Type := {
  Added : string;
  AuthorName : string
}.

Record VCSPushEvent : Type := {
  push_FileCommit : FileCommit
}.

Record TaskDatabaseSchemaUpdatePayload : Type := {
  Statement : string;
  payload_VCSPushEvent : option VCSPushEvent
}.

Record Instance : Type := {
  instance_Name : string;
  instance_Engine : string;
  instance_Username : string;
  instance_Password : string;
  instance_Host : string;
  instance_Port : string
}.

Record Database : Type := {
  database_Name : string;
  database_Instance : Instance
}.

Record Task : Type := {
  task_Payload : string;
  task_Database : Database
}.

(** What the executor does to the outside, in order. *)
Inductive Event : Type :=
| CallComposeTaskRelationship
| CallOpen (engine : string) (cfg : ConnectionConfig)
| LogDebug (msg database : string) (type_ : option MigrationType)
           (sql : string)
| CallExecute (sql : string)
| CallNeedsSetupMigration
| CallExecuteMigration (mi : MigrationInfo) (sql : string).

Section Executor.

(** The errors the collaborators hand back. *)
Variable E : Type.

(** An error of [RunOnce]: a collaborator's, returned as it is, or one
    made here by [fmt.Errorf] (the format, the arguments of its [%v]
    and the error of its [%w]). *)
Inductive Error : Type :=
| Foreign (e : E)
| Errorf (format : string) (args : list string) (wrapped : option E).

(** The [db.Driver] interface. *)
Record Driver : Type := {
  Execute : string -> option E;
  NeedsSetupMigration : E + bool;
  ExecuteMigration : MigrationInfo -> string -> option E
}.

(** The code [RunOnce] calls and that lives outside this file. *)
Record World : Type := {
  SECRET_KEY : string;
  Unmarshal : string -> E + TaskDatabaseSchemaUpdatePayload;
  Base : string -> string;
  ParseMigrationInfo : string -> E + MigrationInfo;
  TrimSpace : string -> string;
  ComposeTaskRelationship : Task -> list string -> Task * option E;
  Open : string -> ConnectionConfig -> E + Driver
}.

(** The pair [RunOnce] returns, and the events up to the return. *)
Record Verdict : Type := {
  terminated : bool;
  err : option Error;
  trace : list Event
}.

(** A piece of [RunOnce]: it returns from the function ([inl]) or goes
    on with a value ([inr]); the events so far are threaded. *)
Definition Run (A : Type) : Type :=
  list Event -> Verdict + (A * list Event).

Definition ret {A : Type} (a : A) : Run A :=
  fun tr => inr (a, tr).

Definition bind {A B : Type} (m : Run A) (k : A -> Run B) : Run B :=
  fun tr =>
    match m tr with
    | inl v => inl v
    | inr (a, tr') => k a tr'
    end.

Definition emit (ev : Event) : Run unit :=
  fun tr => inr (tt, tr ++ [ev]).

(** [return t, e]. *)
Definition stop {A : Type} (t : bool) (e : option Error) : Run A :=
  fun tr => inl {| terminated := t; err := e; trace := tr |}.

Definition finish (m : Run (bool * option Error)) : Verdict :=
  match m [] with
  | inl v => v
  | inr ((t, e), tr) => {| terminated := t; err := e; trace := tr |}
  end.

Notation "x <- c ;; k" := (bind c (fun x => k))
  (at level 61, c at next level, right associativity).
Notation "c ;;; k" := (bind c (fun _ => k))
  (at level 61, right associativity).

Definition RunOnce (w : World) (task : Task) : Verdict :=
  finish (
    payload <-
      match Unmarshal w (task_Payload task) with
      | inl e =>
          stop true (Some (Errorf "invalid schema update payload: %w"
                             [] (Some e)))
      | inr payload => ret payload
      end ;;
    let mi := {| mi_Version := ""; mi_Type := Sql; mi_Creator := "" |} in
    mi <-
      match payload_VCSPushEvent payload with
      | Some ev =>
          let filename := Base w (Added (push_FileCommit ev)) in
          match ParseMigrationInfo w filename with
          | inl e =>
              stop true
                (Some (Errorf
                         "failed to start schema migration, error: %w"
                         [] (Some e)))
          | inr mi =>
              ret (set_Creator mi (AuthorName (push_FileCommit ev)))
          end
      | None => ret mi
      end ;;
    let sql := TrimSpace w (Statement payload) in
    (if negb (MigrationType_eqb (mi_Type mi) Baseline)
        && String.eqb sql ""
     then stop true (Some (Errorf "empty sql statement" [] None))
     else ret tt) ;;;
    emit CallComposeTaskRelationship ;;;
    task <-
      match ComposeTaskRelationship w task [SECRET_KEY w] with
      | (_, Some e) => stop true (Some (Foreign e))
      | (task, None) => ret task
      end ;;
    let instance := database_Instance (task_Database task) in
    let cfg :=
      {| cfg_Username := instance_Username instance;
         cfg_Password := instance_Password instance;
         cfg_Host := instance_Host instance;
         cfg_Port := instance_Port instance;
         cfg_Database := database_Name (task_Database task) |} in
    emit (CallOpen (instance_Engine instance) cfg) ;;;
    driver <-
      match Open w (instance_Engine instance) cfg with
      | inl e =>
          stop true
            (Some (Errorf
                     "failed to connect instance: %v with user: %v. %w"
                     [instance_Name instance; instance_Username instance]
                     (Some e)))
      | inr driver => ret driver
      end ;;
    match payload_VCSPushEvent payload with
    | None =>
        emit (LogDebug "Start executing sql..."
                (database_Name (task_Database task)) None sql) ;;;
        emit (CallExecute sql) ;;;
        match Execute driver sql with
        | Some e => stop true (Some (Foreign e))
        | None => ret (true, None)
        end
    | Some _ =>
        emit (LogDebug "Start sql migration..."
                (database_Name (task_Database task))
                (Some (mi_Type mi)) sql) ;;;
        emit CallNeedsSetupMigration ;;;
        setup <-
          match NeedsSetupMigration driver with
          | inl e =>
              stop true
                (Some (Errorf
                         "failed to check migration setup for instance: %v, %w"
                         [instance_Name instance] (Some e)))
          | inr setup => ret setup
          end ;;
        (if setup : bool
         then stop true
                (Some (Errorf "missing migration schema for instance: %v"
                         [instance_Name instance] None))
         else ret tt) ;;;
        emit (CallExecuteMigration mi sql) ;;;
        match ExecuteMigration driver mi sql with
        | Some e => stop true (Some (Foreign e))
        | None => ret (true, None)
        end
    end).

(** The [mi] of [RunOnce] once the payload is decoded: parsed from the
    base name of the added file, with the commit author as creator, or the
    generic kind when the payload has no push event. *)
Definition migrationInfoOf (w : World)
           (payload : TaskDatabaseSchemaUpdatePayload) : E + MigrationInfo :=
  match payload_VCSPushEvent payload with
  | Some ev =>
      match ParseMigrationInfo w (Base w (Added (push_FileCommit ev))) with
      | inl e => inl e
      | inr mi => inr (set_Creator mi (AuthorName (push_FileCommit ev)))
      end
  | None => inr {| mi_Version := ""; mi_Type := Sql; mi_Creator := "" |}
  end.

(** The connection [RunOnce] opens for a composed task. *)
Definition connectionOf (task : Task) : ConnectionConfig :=
  {| cfg_Username := instance_Username (database_Instance (task_Database task));
     cfg_Password := instance_Password (database_Instance (task_Database task));
     cfg_Host := instance_Host (database_Instance (task_Database task));
     cfg_Port := instance_Port (database_Instance (task_Database task));
     cfg_Database := database_Name (task_Database task) |}.

End Executor.

(** The events that run a statement on the target. *)
Definition executes (ev : Event) : bool :=
  match ev with
  | CallExecute _ | CallExecuteMigration _ _ => true
  | _ => false
  end.

(** The events that use the opened driver. *)
Definition uses_driver (ev : Event) : bool :=
  match ev with
  | CallExecute _ | CallNeedsSetupMigration | CallExecuteMigration _ _ => true
  | _ => false
  end.

Arguments Foreign {E} e.
Arguments Errorf {E} format args wrapped.
Arguments Execute {E} d sql.
Arguments NeedsSetupMigration {E} d.
Arguments ExecuteMigration {E} d mi sql.
Arguments SECRET_KEY {E} w.
Arguments Unmarshal {E} w data.
Arguments Base {E} w path.
Arguments ParseMigrationInfo {E} w filename.
Arguments TrimSpace {E} w s.
Arguments ComposeTaskRelationship {E} w task includes.
Arguments Open {E} w engine cfg.
Arguments RunOnce {E} w task.
Arguments migrationInfoOf {E} w payload.
Arguments terminated {E} v.
Arguments err {E} v.
Arguments trace {E} v.

End Server.

(** ** Concrete tables and calls *)

Module Scenario.

Import SqlTable Store.

Definition FormatError (e : Error) : Error := e.

Definition backend : Backend := {| now := 1000; result_default := "" |}.

Definition connect : TaskCheckType := "bb.task-check.database.connect".

Definition syntax : TaskCheckType := "bb.task-check.database.statement.syntax".

(** A run of task 5 with a given key, type and status. *)
Definition a_run (id : Z) (ty : TaskCheckType) (st : TaskCheckRunStatus)
  : TaskCheckRun :=
  {| ID := id; CreatorId := 1; CreatedTs := 900; UpdaterId := 1;
     UpdatedTs := 900; TaskId := 5; Name := "check"; Status := st;
     Type_ := ty; Comment := ""; Result_ := ""; Payload := "" |}.

(** A request for a check of task 5. *)
Definition a_create (ty : TaskCheckType) (skip : bool) : TaskCheckRunCreate :=
  {| create_CreatorId := 1; create_TaskId := 5; create_Name := "check";
     create_Type := ty; create_Comment := ""; create_Payload := "";
     create_SkipIfAlreadyDone := skip |}.

Definition a_patch (id : option Z) (st : TaskCheckRunStatus)
  : TaskCheckRunStatusPatch :=
  {| patch_ID := id; patch_UpdaterId := 2; patch_Status := st;
     patch_Comment := "done"; patch_Result := "{}" |}.

(** Create, complete, create again, then patch the first run back to
    Running. *)
Definition reopen : list Op :=
  [OpCreate backend (a_create syntax false);
   OpPatch (a_patch (Some 1) TaskCheckRunDone);
   OpCreate backend (a_create syntax false);
   OpPatch (a_patch (Some 1) TaskCheckRunRunning)].

(** Create, complete, create again. *)
Definition rerun : list Op :=
  [OpCreate backend (a_create syntax false);
   OpPatch (a_patch (Some 1) TaskCheckRunDone);
   OpCreate backend (a_create syntax false)].

(** Two Running runs and a Done run of task 5. *)
Definition crowded : Table :=
  [a_run 1 syntax TaskCheckRunRunning;
   a_run 2 syntax TaskCheckRunRunning;
   a_run 3 syntax TaskCheckRunDone].

(** Two Running runs of task 5. *)
Definition doubled : Table :=
  [a_run 1 syntax TaskCheckRunRunning;
   a_run 2 syntax TaskCheckRunRunning].

(** A target that answers every call: the payload decodes to [p], a file
    name parses to a migration of kind [kind], and the instance reports
    [setup] for its migration schema. *)
Definition driver (setup : bool) : Server.Driver string :=
  {| Server.Execute := fun _ => None;
     Server.NeedsSetupMigration := inr setup;
     Server.ExecuteMigration := fun _ _ => None |}.

Definition world (p : Server.TaskDatabaseSchemaUpdatePayload)
           (kind : Db.MigrationType) (setup : bool) : Server.World string :=
  {| Server.SECRET_KEY := "secret";
     Server.Unmarshal := fun _ => inr p;
     Server.Base := fun path => path;
     Server.ParseMigrationInfo :=
       fun _ => inr {| Db.mi_Version := "1"; Db.mi_Type := kind;
                       Db.mi_Creator := "" |};
     Server.TrimSpace := fun s => s;
     Server.ComposeTaskRelationship := fun task _ => (task, None);
     Server.Open := fun _ _ => inr (driver setup) |}.

Definition a_task : Server.Task :=
  {| Server.task_Payload := "{}";
     Server.task_Database :=
       {| Server.database_Name := "shop";
          Server.database_Instance :=
            {| Server.instance_Name := "prod";
               Server.instance_Engine := "MYSQL";
               Server.instance_Username := "root";
               Server.instance_Password := "";
               Server.instance_Host := "127.0.0.1";
               Server.instance_Port := "3306" |} |} |}.

(** A target whose driver refuses every statement. *)
Definition broken_driver : Server.Driver string :=
  {| Server.Execute := fun _ => Some "syntax error";
     Server.NeedsSetupMigration := inr false;
     Server.ExecuteMigration := fun _ _ => Some "syntax error" |}.

Definition broken_world (p : Server.TaskDatabaseSchemaUpdatePayload)
  : Server.World string :=
  {| Server.SECRET_KEY := "secret";
     Server.Unmarshal := fun _ => inr p;
     Server.Base := fun path => path;
     Server.ParseMigrationInfo :=
       fun _ => inr {| Db.mi_Version := "1"; Db.mi_Type := Db.Migrate;
                       Db.mi_Creator := "" |};
     Server.TrimSpace := fun s => s;
     Server.ComposeTaskRelationship := fun task _ => (task, None);
     Server.Open := fun _ _ => inr broken_driver |}.

(** Two runs of task 5 under the keys 1 and 2. *)
Definition paired : Table :=
  [a_run 1 syntax TaskCheckRunRunning; a_run 2 connect TaskCheckRunDone].

(** The payload [{statement: s}], with no push event. *)
Definition adhoc (s : string) : Server.TaskDatabaseSchemaUpdatePayload :=
  {| Server.Statement := s; Server.payload_VCSPushEvent := None |}.

(** The payload of a push that added [001__init.sql]. *)
Definition pushed (s : string) : Server.TaskDatabaseSchemaUpdatePayload :=
  {| Server.Statement := s;
     Server.payload_VCSPushEvent :=
       Some {| Server.push_FileCommit :=
                 {| Server.Added := "001__init.sql";
                    Server.AuthorName := "alice" |} |} |}.

End Scenario.

(** * Properties *)

Import SqlTable Store.

(** ** The statements of the table *)

Lemma TaskCheckRunStatus_eqb_eq (a b : TaskCheckRunStatus) :
  TaskCheckRunStatus_eqb a b = true <-> a = b.
Proof. destruct a, b; simpl; split; congruence. Qed.

Lemma existsb_status_In (s : TaskCheckRunStatus) (l : list TaskCheckRunStatus) :
  existsb (TaskCheckRunStatus_eqb s) l = true <-> In s l.
Proof.
  rewrite existsb_exists. split.
  - intros (x & Hx & Heq). apply TaskCheckRunStatus_eqb_eq in Heq. now subst.
  - intros H. exists s. split; [assumption | now apply TaskCheckRunStatus_eqb_eq].
Qed.

(** Binding [n] placeholders against [n] statuses gives them back. *)
Lemma take_statuses_map (l : list TaskCheckRunStatus) (rest : list Value) :
  take_statuses (List.length l) (map VStatus l ++ rest) = Some (l, rest).
Proof.
  induction l as [|s l IH]; simpl; [reflexivity|].
  now rewrite IH.
Qed.

(** The loop over [*find.StatusList]: one placeholder and one argument
    per status. *)
Lemma range_StatusList (v : list TaskCheckRunStatus) :
  forall (marks : list string) (args : list Value),
    fold_left
      (fun '(list_, args) status_ =>
         (list_ ++ ["?"%string], args ++ [VStatus status_]))
      v (marks, args)
    = (marks ++ repeat "?"%string (List.length v), args ++ map VStatus v).
Proof.
  induction v as [|s v IH]; intros marks args; simpl.
  - now rewrite !app_nil_r.
  - rewrite IH. rewrite <- !app_assoc. reflexivity.
Qed.

Lemma take_statuses_all (l : list TaskCheckRunStatus) :
  take_statuses (List.length (repeat "?"%string (List.length l)))
    (map VStatus l) = Some (l, []).
Proof.
  rewrite repeat_length.
  rewrite <- (app_nil_r (map VStatus l)). apply take_statuses_map.
Qed.

Section FindFacts.

Variable FormatError : Error -> Error.

(** The query of [findTaskCheckRunList] always binds, and selects the
    rows that pass the filter, in table order. *)
Lemma findTaskCheckRunList_filter (tx : Table) (find : TaskCheckRunFind) :
  findTaskCheckRunList FormatError tx find = Ok (filter (matches find) tx).
Proof.
  destruct find as [[i|] [t|] [l|]];
    unfold findTaskCheckRunList, matches, select;
    cbn [find_ID find_TaskId find_StatusList];
    rewrite ?range_StatusList; cbn [app bind_where bind_clause];
    rewrite ?take_statuses_all;
    f_equal; apply filter_ext; intros r; unfold holds_all; simpl;
    rewrite ?andb_true_r, ?andb_assoc; reflexivity.
Qed.

Lemma matches_spec (find : TaskCheckRunFind) (r : TaskCheckRun) :
  matches find r = true <->
  (forall v, find_ID find = Some v -> ID r = v)
  /\ (forall v, find_TaskId find = Some v -> TaskId r = v)
  /\ (forall l, find_StatusList find = Some l -> In (Status r) l).
Proof.
  unfold matches. rewrite !andb_true_iff.
  destruct find as [[i|] [t|] [l|]]; cbn [find_ID find_TaskId find_StatusList];
    rewrite ?Z.eqb_eq, ?existsb_status_In;
    (split;
     [ intros [[H1 H2] H3]; repeat split; intros ? Heq; congruence
     | intros (H1 & H2 & H3); repeat split; auto ]).
Qed.

End FindFacts.

(** ** Finding task check runs *)

Section FindClaims.

Variable FormatError : Error -> Error.

(** C8: for every filter, [findTaskCheckRunList] returns, without error
    and in table order, exactly the rows that satisfy one predicate per
    non-nil field: the id equals [ID], the task id equals [TaskId], the
    status is a member of [StatusList]; a nil field constrains nothing,
    so the filter with every field nil returns the whole table. *)
Theorem findTaskCheckRunList_conjunction
        (tx : Table) (find : TaskCheckRunFind) :
  exists list_ : list TaskCheckRun,
    findTaskCheckRunList FormatError tx find = Ok list_
    /\ list_ = filter (matches find) tx
    /\ (forall r,
           In r list_ <->
           In r tx
           /\ (forall v, find_ID find = Some v -> ID r = v)
           /\ (forall v, find_TaskId find = Some v -> TaskId r = v)
           /\ (forall l, find_StatusList find = Some l -> In (Status r) l))
    /\ (find_ID find = None -> find_TaskId find = None ->
        find_StatusList find = None -> list_ = tx).
Proof.
  exists (filter (matches find) tx).
  split; [apply findTaskCheckRunList_filter|].
  split; [reflexivity|].
  split.
  - intros r. rewrite filter_In, matches_spec. reflexivity.
  - intros H1 H2 H3. unfold matches. rewrite H1, H2, H3. simpl.
    induction tx as [|r t IH]; simpl; [reflexivity | now rewrite IH].
Qed.

(** C10: [FindTaskCheckRunTx] answers by the number of rows that pass
    the filter: ENOTFOUND exactly when there is none, ECONFLICT exactly
    when there are two or more, and the single row, without error,
    otherwise. *)
Theorem FindTaskCheckRunTx_by_count (tx : Table) (find : TaskCheckRunFind) :
  let hits := filter (matches find) tx in
  FindTaskCheckRunTx FormatError tx find
  = match hits with
    | [] => Err (CommonError ENOTFOUND)
    | [r] => Ok r
    | _ :: _ :: _ => Err (CommonError ECONFLICT)
    end
  /\ (FindTaskCheckRunTx FormatError tx find = Err (CommonError ENOTFOUND)
      <-> List.length hits = 0%nat)
  /\ (FindTaskCheckRunTx FormatError tx find = Err (CommonError ECONFLICT)
      <-> (1 < List.length hits)%nat)
  /\ ((exists r, FindTaskCheckRunTx FormatError tx find = Ok r
                 /\ hits = [r])
      <-> List.length hits = 1%nat).
Proof.
  intros hits.
  assert (Heq : FindTaskCheckRunTx FormatError tx find
                = match hits with
                  | [] => Err (CommonError ENOTFOUND)
                  | [r] => Ok r
                  | _ :: _ :: _ => Err (CommonError ECONFLICT)
                  end).
  { unfold FindTaskCheckRunTx. rewrite findTaskCheckRunList_filter.
    fold hits. destruct hits as [|r [|r' rest]]; reflexivity. }
  split; [exact Heq|]. rewrite Heq.
  destruct hits as [|r [|r' rest]]; simpl; repeat split;
    try reflexivity; try lia;
    try (intros H;
         first [ discriminate H
               | lia
               | destruct H as (r0 & H & H'); discriminate
               | exists r; split; reflexivity ]).
Qed.

End FindClaims.

(** ** What the two writers do to the table *)

Section WriterFacts.

Variable FormatError : Error -> Error.

Lemma CreateTaskCheckRunTx_inserted
      (b : Backend) (tx : Table) (create : TaskCheckRunCreate) :
  CreateTaskCheckRunTx FormatError b tx create
  = (tx ++ [inserted b tx create], Ok (inserted b tx create)).
Proof. reflexivity. Qed.

Lemma update_rows_patched
      (patch : TaskCheckRunStatusPatch) (ks : list Cond) (t : Table) :
  update_rows
    [(updater_id, VInt (patch_UpdaterId patch));
     (status, VStatus (patch_Status patch));
     (comment, VText (patch_Comment patch));
     (result, VText (patch_Result patch))] ks t
  = Some (map (fun r => if holds_all ks r then patched patch r else r) t,
          map (patched patch) (filter (holds_all ks) t)).
Proof.
  induction t as [|r t IH]; [reflexivity|].
  cbn [update_rows]. rewrite IH. cbn [map filter].
  destruct (holds_all ks r); reflexivity.
Qed.

(** The write of a patch: four columns change, eight stay. *)
Lemma patched_fields (patch : TaskCheckRunStatusPatch) (r : TaskCheckRun) :
  UpdaterId (patched patch r) = patch_UpdaterId patch
  /\ Status (patched patch r) = patch_Status patch
  /\ Comment (patched patch r) = patch_Comment patch
  /\ Result_ (patched patch r) = patch_Result patch
  /\ ID (patched patch r) = ID r
  /\ CreatorId (patched patch r) = CreatorId r
  /\ CreatedTs (patched patch r) = CreatedTs r
  /\ UpdatedTs (patched patch r) = UpdatedTs r
  /\ TaskId (patched patch r) = TaskId r
  /\ Name (patched patch r) = Name r
  /\ Type_ (patched patch r) = Type_ r
  /\ Payload (patched patch r) = Payload r.
Proof. repeat split. Qed.

Lemma PatchTaskCheckRunStatusTx_map
      (tx : Table) (patch : TaskCheckRunStatusPatch) :
  PatchTaskCheckRunStatusTx FormatError tx patch
  = (map (fun r => if addressed patch r then patched patch r else r) tx,
     match map (patched patch) (filter (addressed patch) tx) with
     | r :: _ => Ok r
     | [] => Err (FormatError (SqlError "sql: Rows are closed"))
     end).
Proof.
  unfold PatchTaskCheckRunStatusTx, update, addressed.
  destruct (patch_ID patch) as [v|];
    cbn [app map bind_slots bind_where bind_clause];
    rewrite update_rows_patched; unfold scan_first.
  - rewrite (map_ext (fun r => if holds_all [CTrue; CId v] r
                               then patched patch r else r)
                     (fun r => if ID r =? v then patched patch r else r)).
    2:{ intros r. unfold holds_all. simpl. now rewrite andb_true_r. }
    rewrite (filter_ext (holds_all [CTrue; CId v]) (fun r => ID r =? v)).
    2:{ intros r. unfold holds_all. simpl. now rewrite andb_true_r. }
    destruct (map (patched patch) (filter (fun r => ID r =? v) tx));
      reflexivity.
  - rewrite (map_ext (fun r => if holds_all [CTrue] r
                               then patched patch r else r)
                     (fun r => patched patch r)) by reflexivity.
    rewrite (filter_ext (holds_all [CTrue]) (fun _ => true)) by reflexivity.
    destruct (map (patched patch) (filter (fun _ => true) tx));
      reflexivity.
Qed.

End WriterFacts.

(** ** The loop over the runs found *)

Lemma rangeTaskCheckRunList_inl (l : list TaskCheckRun) :
  forall (n : nat) (r : TaskCheckRun),
    rangeTaskCheckRunList l n = inl r ->
    exists l1 l2,
      l = l1 ++ r :: l2
      /\ Status r = TaskCheckRunDone
      /\ (forall x, In x l1 -> Status x <> TaskCheckRunDone).
Proof.
  induction l as [|x l IH]; intros n r H; simpl in H; [discriminate|].
  destruct (Status x) eqn:Hx.
  - destruct (IH _ _ H) as (l1 & l2 & -> & Hd & Hn).
    exists (x :: l1), l2. repeat split; try assumption.
    intros y [<-|Hy]; [congruence | now apply Hn].
  - inversion H; subst. exists [], l. repeat split; try assumption.
    intros y [].
  - destruct (IH _ _ H) as (l1 & l2 & -> & Hd & Hn).
    exists (x :: l1), l2. repeat split; try assumption.
    intros y [<-|Hy]; [congruence | now apply Hn].
Qed.

Lemma rangeTaskCheckRunList_inr (l : list TaskCheckRun) :
  forall (n m : nat),
    rangeTaskCheckRunList l n = inr m ->
    (forall x, In x l -> Status x <> TaskCheckRunDone)
    /\ m = (n + List.length (filter is_running l))%nat.
Proof.
  induction l as [|x l IH]; intros n m H; simpl in H.
  - inversion H; subst. split; [intros x [] | simpl; lia].
  - cbn [filter]. unfold is_running at 1.
    destruct (Status x) eqn:Hx; cbn [TaskCheckRunStatus_eqb List.length].
    + destruct (IH _ _ H) as [Hn ->]. split; [|lia].
      intros y [<-|Hy]; [congruence | now apply Hn].
    + discriminate.
    + destruct (IH _ _ H) as [Hn ->]. split; [|reflexivity].
      intros y [<-|Hy]; [congruence | now apply Hn].
Qed.

Lemma rangeTaskCheckRunList_done (l : list TaskCheckRun) :
  forall (n : nat) (x : TaskCheckRun),
    In x l -> Status x = TaskCheckRunDone ->
    exists r, rangeTaskCheckRunList l n = inl r.
Proof.
  induction l as [|y l IH]; intros n x Hin Hx; [destruct Hin|].
  simpl. destruct (Status y) eqn:Hy.
  - destruct Hin as [<-|Hin]; [congruence | eauto].
  - eauto.
  - destruct Hin as [<-|Hin]; [congruence | eauto].
Qed.

Section CreateFacts.

Variable FormatError : Error -> Error.

(** [CreateTaskCheckRunIfNeeded] by cases on what the loop leaves. *)
Lemma CreateTaskCheckRunIfNeeded_cases
      (b : Backend) (db : Table) (create : TaskCheckRunCreate) :
  CreateTaskCheckRunIfNeeded FormatError b db create
  = let l := filter (matches (taskCheckRunFind create)) db in
    match (if create_SkipIfAlreadyDone create
           then rangeTaskCheckRunList l 0
           else inr (List.length l))
    with
    | inl r => {| table := db; logged := []; returned := Ok r |}
    | inr n =>
        if (0 <? n)%nat
        then {| table := db;
                logged := if (1 <? n)%nat
                          then [Warn (List.length l) (create_TaskId create)
                                  (create_Type create)]
                          else [];
                returned := index0 l |}
        else {| table := db ++ [inserted b db create];
                logged := [];
                returned := Ok (inserted b db create) |}
    end.
Proof.
  unfold CreateTaskCheckRunIfNeeded, FindTaskCheckRunListTx.
  rewrite findTaskCheckRunList_filter.
  rewrite CreateTaskCheckRunTx_inserted.
  unfold taskCheckRunFind.
  destruct (create_SkipIfAlreadyDone create); reflexivity.
Qed.

(** The runs found are runs of the task, Running or (under the skip)
    Done, whatever their type. *)
Lemma found_iff (create : TaskCheckRunCreate) (db : Table) (r : TaskCheckRun) :
  In r (filter (matches (taskCheckRunFind create)) db) <->
  In r db
  /\ TaskId r = create_TaskId create
  /\ (Status r = TaskCheckRunRunning
      \/ (create_SkipIfAlreadyDone create = true
          /\ Status r = TaskCheckRunDone)).
Proof.
  rewrite filter_In. unfold matches, taskCheckRunFind. simpl.
  rewrite andb_true_iff, Z.eqb_eq.
  destruct (create_SkipIfAlreadyDone create); simpl;
    destruct (Status r); simpl; intuition congruence.
Qed.

End CreateFacts.

(** ** The registry keeps one Running run per task *)

Lemma running_of_le (taskId : Z) (ty : TaskCheckType) (t : Table) :
  (List.length (running_of taskId ty t)
   <= List.length (running_of_task taskId t))%nat.
Proof.
  unfold running_of, running_of_task.
  induction t as [|r t IH]; simpl; [lia|].
  destruct (TaskCheckRunStatus_eqb (Status r) TaskCheckRunRunning
            && (TaskId r =? taskId)); simpl;
    [destruct (String.eqb (Type_ r) ty); simpl; lia | lia].
Qed.

Lemma no_running_nil (taskId : Z) (t : Table) :
  no_running t -> running_of_task taskId t = [].
Proof.
  intros H. unfold running_of_task.
  induction t as [|r t IH]; simpl; [reflexivity|].
  assert (Hr : Status r <> TaskCheckRunRunning) by (apply H; now left).
  destruct (Status r); try congruence; simpl;
    apply IH; intros x Hx; apply H; now right.
Qed.

Lemma patched_running_le
      (patch : TaskCheckRunStatusPatch) (taskId : Z) (t : Table) :
  patch_Status patch <> TaskCheckRunRunning ->
  (List.length
     (running_of_task taskId
        (map (fun r => if addressed patch r then patched patch r else r) t))
   <= List.length (running_of_task taskId t))%nat.
Proof.
  intros Hp. unfold running_of_task.
  induction t as [|r t IH]; simpl; [lia|].
  destruct (addressed patch r); simpl.
  - destruct (patch_Status patch); try congruence; simpl;
      destruct (TaskCheckRunStatus_eqb (Status r) TaskCheckRunRunning
                && (TaskId r =? taskId)); simpl; lia.
  - destruct (TaskCheckRunStatus_eqb (Status r) TaskCheckRunRunning
              && (TaskId r =? taskId)); simpl; lia.
Qed.

Lemma unaddressed_map
      (patch : TaskCheckRunStatusPatch) (t : Table) :
  filter (addressed patch) t = [] ->
  map (fun r => if addressed patch r then patched patch r else r) t = t.
Proof.
  induction t as [|r t IH]; simpl; [reflexivity|].
  destruct (addressed patch r); [discriminate|].
  intros H. now rewrite IH.
Qed.

Section RegistryFacts.

Variable FormatError : Error -> Error.

(** Committed or rolled back, the table after a patch is the table with
    the addressed rows rewritten. *)
Lemma PatchTaskCheckRunStatus_table
      (db : Table) (patch : TaskCheckRunStatusPatch) :
  table (PatchTaskCheckRunStatus FormatError db patch)
  = map (fun r => if addressed patch r then patched patch r else r) db.
Proof.
  unfold PatchTaskCheckRunStatus. rewrite PatchTaskCheckRunStatusTx_map.
  destruct (filter (addressed patch) db) eqn:Hf; simpl.
  - symmetry. now apply unaddressed_map.
  - reflexivity.
Qed.

(** A create leaves the table alone, or appends one Running run of a task
    that had none. *)
Lemma CreateTaskCheckRunIfNeeded_table
      (b : Backend) (db : Table) (create : TaskCheckRunCreate) :
  table (CreateTaskCheckRunIfNeeded FormatError b db create) = db
  \/ (table (CreateTaskCheckRunIfNeeded FormatError b db create)
      = db ++ [inserted b db create]
      /\ running_of_task (create_TaskId create) db = []).
Proof.
  rewrite CreateTaskCheckRunIfNeeded_cases. cbv zeta.
  set (l := filter (matches (taskCheckRunFind create)) db).
  assert (Hnone : filter is_running l = [] ->
                  running_of_task (create_TaskId create) db = []).
  { intros Hl.
    destruct (running_of_task (create_TaskId create) db) as [|x rest] eqn:Hf;
      [reflexivity|].
    assert (Hx : In x (running_of_task (create_TaskId create) db))
      by (rewrite Hf; now left).
    unfold running_of_task in Hx. apply filter_In in Hx. destruct Hx as [Hin Hx].
    apply andb_true_iff in Hx. destruct Hx as [Hs Ht].
    apply Z.eqb_eq in Ht.
    assert (Hxl : In x (filter is_running l)).
    { apply filter_In. split; [|exact Hs].
      apply found_iff. repeat split; try assumption.
      left. now apply TaskCheckRunStatus_eqb_eq. }
    rewrite Hl in Hxl. destruct Hxl. }
  destruct (create_SkipIfAlreadyDone create).
  - destruct (rangeTaskCheckRunList l 0) as [r|n] eqn:Hr; [now left|].
    destruct n as [|n]; simpl; [|now left].
    right. split; [reflexivity|]. apply Hnone.
    apply rangeTaskCheckRunList_inr in Hr. destruct Hr as [_ Hr].
    destruct (filter is_running l); [reflexivity | simpl in Hr; lia].
  - destruct (List.length l) as [|n] eqn:Hn; simpl; [|now left].
    right. split; [reflexivity|]. apply Hnone.
    destruct l; [reflexivity | discriminate].
Qed.

Lemma step_keeps_one (db : Table) (op : Op) :
  settles op ->
  (forall taskId, (List.length (running_of_task taskId db) <= 1)%nat) ->
  forall taskId,
    (List.length (running_of_task taskId (step FormatError db op)) <= 1)%nat.
Proof.
  intros Hop Hinv taskId. destruct op as [b create | patch]; simpl.
  - destruct (CreateTaskCheckRunIfNeeded_table b db create)
      as [-> | [-> Hnone]]; [apply Hinv|].
    unfold running_of_task in *. rewrite filter_app, length_app. simpl.
    destruct (Z.eqb_spec (create_TaskId create) taskId) as [<-|Hne].
    + rewrite Hnone. simpl. lia.
    + specialize (Hinv taskId). simpl. lia.
  - rewrite PatchTaskCheckRunStatus_table.
    etransitivity; [apply patched_running_le; exact Hop | apply Hinv].
Qed.

Lemma run_keeps_one (ops : list Op) :
  forall db : Table,
    Forall settles ops ->
    (forall taskId, (List.length (running_of_task taskId db) <= 1)%nat) ->
    forall taskId,
      (List.length (running_of_task taskId (run FormatError db ops)) <= 1)%nat.
Proof.
  induction ops as [|op ops IH]; intros db Hops Hinv; [exact Hinv|].
  inversion Hops; subst. simpl. apply IH; [assumption|].
  now apply step_keeps_one.
Qed.

End RegistryFacts.

(** ** The registry claims *)

Section RegistryClaims.

Variable FormatError : Error -> Error.

(** C1 (as amended): from a table with no Running runs, after any sequence
    of [CreateTaskCheckRunIfNeeded] and [PatchTaskCheckRunStatus] calls in
    which no patch writes the status Running, every (task, check type)
    pair has at most one Running run; and on the table reached, a create
    for a pair that has a Running run inserts nothing. *)
Theorem registry_one_running_when_patches_settle
        (db : Table) (ops : list Op) :
  no_running db ->
  Forall settles ops ->
  forall (taskId : Z) (ty : TaskCheckType),
    (List.length (running_of taskId ty (run FormatError db ops)) <= 1)%nat
    /\ (forall (b : Backend) (create : TaskCheckRunCreate),
           create_TaskId create = taskId ->
           create_Type create = ty ->
           running_of taskId ty (run FormatError db ops) <> [] ->
           table (CreateTaskCheckRunIfNeeded FormatError b
                    (run FormatError db ops) create)
           = run FormatError db ops).
Proof.
  intros Hdb Hops taskId ty.
  assert (Hone : forall t,
             (List.length (running_of_task t (run FormatError db ops)) <= 1)%nat).
  { apply run_keeps_one; [exact Hops|].
    intros t. rewrite (no_running_nil t db Hdb). simpl. lia. }
  split.
  - etransitivity; [apply running_of_le | apply Hone].
  - intros b create <- <- Hpair.
    destruct (CreateTaskCheckRunIfNeeded_table FormatError b
                (run FormatError db ops) create) as [H | [_ Hnone]];
      [exact H|].
    exfalso. apply Hpair.
    pose proof (running_of_le (create_TaskId create) (create_Type create)
                  (run FormatError db ops)) as Hle.
    rewrite Hnone in Hle.
    destruct (running_of _ _ _); [reflexivity | simpl in Hle; lia].
Qed.

(** C7 (as amended): when the runs found hold more than one Running run,
    the call returns one of the runs found, without error and without
    writing the table.  If no run found is Done, it returns the first run
    of the list and logs one warning; if a run found is Done (which needs
    [SkipIfAlreadyDone]), it returns a Done run and logs nothing. *)
Theorem CreateTaskCheckRunIfNeeded_many_running
        (b : Backend) (db : Table) (create : TaskCheckRunCreate) :
  (1 < List.length
         (filter is_running
            (filter (matches (taskCheckRunFind create)) db)))%nat ->
  exists r : TaskCheckRun,
    FindTaskCheckRunListTx FormatError db (taskCheckRunFind create)
    = Ok (filter (matches (taskCheckRunFind create)) db)
    /\ returned (CreateTaskCheckRunIfNeeded FormatError b db create) = Ok r
    /\ In r (filter (matches (taskCheckRunFind create)) db)
    /\ table (CreateTaskCheckRunIfNeeded FormatError b db create) = db
    /\ ((forall x, In x (filter (matches (taskCheckRunFind create)) db) ->
                   Status x <> TaskCheckRunDone) ->
        index0 (filter (matches (taskCheckRunFind create)) db) = Ok r
        /\ logged (CreateTaskCheckRunIfNeeded FormatError b db create)
           = [Warn (List.length
                      (filter (matches (taskCheckRunFind create)) db))
                (create_TaskId create) (create_Type create)])
    /\ ((exists x, In x (filter (matches (taskCheckRunFind create)) db)
                   /\ Status x = TaskCheckRunDone) ->
        create_SkipIfAlreadyDone create = true
        /\ Status r = TaskCheckRunDone
        /\ logged (CreateTaskCheckRunIfNeeded FormatError b db create) = []).
Proof.
  intros Hmany.
  assert (Hfind : FindTaskCheckRunListTx FormatError db (taskCheckRunFind create)
                  = Ok (filter (matches (taskCheckRunFind create)) db)).
  { unfold FindTaskCheckRunListTx. now rewrite findTaskCheckRunList_filter. }
  rewrite CreateTaskCheckRunIfNeeded_cases. cbv zeta.
  pose proof (found_iff create db) as Hfound.
  set (l := filter (matches (taskCheckRunFind create)) db) in *.
  pose proof (filter_length_le is_running l) as Hle.
  destruct (create_SkipIfAlreadyDone create) eqn:Hskip.
  - destruct (rangeTaskCheckRunList l 0) as [r|n] eqn:Hr.
    + destruct (rangeTaskCheckRunList_inl _ _ _ Hr) as (l1 & l2 & Hl & Hd & _).
      exists r. simpl. repeat split; try assumption.
      * rewrite Hl. apply in_or_app. right. now left.
      * exfalso. apply (H r); [|exact Hd].
        rewrite Hl. apply in_or_app. right. now left.
      * exfalso. apply (H r); [|exact Hd].
        rewrite Hl. apply in_or_app. right. now left.
    + destruct (rangeTaskCheckRunList_inr _ _ _ Hr) as [Hnd ->]. simpl.
      destruct l as [|x l']; [simpl in Hmany; lia|].
      replace (0 <? _)%nat with true by (symmetry; apply Nat.ltb_lt; lia).
      replace (1 <? _)%nat with true by (symmetry; apply Nat.ltb_lt; lia).
      exists x. simpl. repeat split; try assumption; try (now left).
      * destruct H as (y & Hy & Hyd). now apply Hnd in Hy.
      * destruct H as (y & Hy & Hyd). now apply Hnd in Hy.
  - destruct l as [|x l'] eqn:Hl; [simpl in Hmany; lia|].
    replace (0 <? _)%nat with true by (symmetry; apply Nat.ltb_lt; simpl; lia).
    replace (1 <? _)%nat with true
      by (symmetry; apply Nat.ltb_lt; simpl in *; lia).
    exists x. simpl. repeat split; try assumption; try (now left).
    + destruct H as (y & Hy & Hyd). apply Hfound in Hy.
      destruct Hy as (_ & _ & [Hy | [Hy _]]); congruence.
    + destruct H as (y & Hy & Hyd). apply Hfound in Hy.
      destruct Hy as (_ & _ & [Hy | [Hy _]]); congruence.
    + destruct H as (y & Hy & Hyd). apply Hfound in Hy.
      destruct Hy as (_ & _ & [Hy | [Hy _]]); congruence.
Qed.

(** C9: with [patch.ID] nil the WHERE clause is [1 = 1] alone, every row
    receives the new updater, status, comment and result, and the first
    written row is returned; with [patch.ID] set, the rows with that id
    are the ones written and every other row stays as it was. *)
Theorem PatchTaskCheckRunStatusTx_where
        (tx : Table) (patch : TaskCheckRunStatusPatch) :
  match patch_ID patch with
  | None =>
      fst (PatchTaskCheckRunStatusTx FormatError tx patch)
      = map (patched patch) tx
      /\ snd (PatchTaskCheckRunStatusTx FormatError tx patch)
         = match tx with
           | r :: _ => Ok (patched patch r)
           | [] => Err (FormatError (SqlError "sql: Rows are closed"))
           end
      /\ table (PatchTaskCheckRunStatus FormatError tx patch)
         = map (patched patch) tx
  | Some v =>
      fst (PatchTaskCheckRunStatusTx FormatError tx patch)
      = map (fun r => if ID r =? v then patched patch r else r) tx
      /\ (forall n r,
             nth_error tx n = Some r ->
             nth_error (fst (PatchTaskCheckRunStatusTx FormatError tx patch)) n
             = Some (if ID r =? v then patched patch r else r))
      /\ snd (PatchTaskCheckRunStatusTx FormatError tx patch)
         = match filter (fun r => ID r =? v) tx with
           | r :: _ => Ok (patched patch r)
           | [] => Err (FormatError (SqlError "sql: Rows are closed"))
           end
      /\ table (PatchTaskCheckRunStatus FormatError tx patch)
         = map (fun r => if ID r =? v then patched patch r else r) tx
  end.
Proof.
  rewrite PatchTaskCheckRunStatus_table, PatchTaskCheckRunStatusTx_map.
  unfold addressed. destruct (patch_ID patch) as [v|]; cbn [fst snd].
  - repeat split.
    + intros n r Hn. now rewrite nth_error_map, Hn.
    + destruct (filter (fun r => ID r =? v) tx); reflexivity.
  - repeat split.
    destruct tx; reflexivity.
Qed.

End RegistryClaims.

(** ** The registry on concrete tables *)

(** C1, a sequence that ends with two Running runs of one pair: the check
    of task 5 is created, completed, created again, and then the first run
    is patched back to Running. *)
Lemma registry_two_running_after_reopen :
  no_running []
  /\ List.length
       (running_of 5 Scenario.syntax
          (run Scenario.FormatError [] Scenario.reopen)) = 2%nat.
Proof.
  split; [intros r [] | vm_compute; reflexivity].
Qed.

(** C1 (as amended) on the sequence create, complete, create again. *)
Lemma registry_one_running_after_rerun :
  (List.length
     (running_of 5 Scenario.syntax
        (run Scenario.FormatError [] Scenario.rerun)) <= 1)%nat.
Proof.
  destruct (registry_one_running_when_patches_settle
              Scenario.FormatError [] Scenario.rerun) with
    (taskId := 5) (ty := Scenario.syntax) as (H1 & _).
  - intros r [].
  - unfold Scenario.rerun. repeat constructor. simpl. discriminate.
  - exact H1.
Defined.

(** C7, a call that finds two Running runs and a Done run under
    [SkipIfAlreadyDone]: it returns the Done run, the third of the list,
    and logs no warning. *)
Lemma skip_returns_done_among_running :
  FindTaskCheckRunListTx Scenario.FormatError Scenario.crowded
    (taskCheckRunFind (Scenario.a_create Scenario.syntax true))
  = Ok Scenario.crowded
  /\ List.length (filter is_running Scenario.crowded) = 2%nat
  /\ index0 Scenario.crowded
     = Ok (Scenario.a_run 1 Scenario.syntax TaskCheckRunRunning)
  /\ CreateTaskCheckRunIfNeeded Scenario.FormatError Scenario.backend
       Scenario.crowded (Scenario.a_create Scenario.syntax true)
     = {| table := Scenario.crowded;
          logged := [];
          returned := Ok (Scenario.a_run 3 Scenario.syntax TaskCheckRunDone) |}.
Proof. repeat split. Qed.

(** C7 (as amended) on a table with two Running runs of task 5. *)
Lemma many_running_on_doubled :
  exists r : TaskCheckRun,
    returned (CreateTaskCheckRunIfNeeded Scenario.FormatError Scenario.backend
                Scenario.doubled (Scenario.a_create Scenario.syntax false))
    = Ok r
    /\ index0 Scenario.doubled = Ok r
    /\ logged (CreateTaskCheckRunIfNeeded Scenario.FormatError
                 Scenario.backend Scenario.doubled
                 (Scenario.a_create Scenario.syntax false))
       = [Warn 2 5 Scenario.syntax].
Proof.
  destruct (CreateTaskCheckRunIfNeeded_many_running
              Scenario.FormatError Scenario.backend Scenario.doubled
              (Scenario.a_create Scenario.syntax false))
    as (r & _ & Hret & _ & _ & Hfirst & _).
  - vm_compute. lia.
  - exists r. split; [exact Hret|].
    apply Hfirst. intros x Hx.
    vm_compute in Hx. destruct Hx as [<- | [<- | []]]; discriminate.
Defined.

(** C2, evaluated: task 5 has a Running run of type connect and none of
    type syntax; a create for type syntax inserts nothing and returns the
    connect run. *)
Theorem CreateTaskCheckRunIfNeeded_returns_other_type :
  running_of 5 Scenario.syntax
    [Scenario.a_run 1 Scenario.connect TaskCheckRunRunning] = []
  /\ CreateTaskCheckRunIfNeeded Scenario.FormatError Scenario.backend
       [Scenario.a_run 1 Scenario.connect TaskCheckRunRunning]
       (Scenario.a_create Scenario.syntax false)
     = {| table := [Scenario.a_run 1 Scenario.connect TaskCheckRunRunning];
          logged := [];
          returned :=
            Ok (Scenario.a_run 1 Scenario.connect TaskCheckRunRunning) |}
  /\ Type_ (Scenario.a_run 1 Scenario.connect TaskCheckRunRunning)
     <> create_Type (Scenario.a_create Scenario.syntax false).
Proof.
  repeat split. vm_compute. discriminate.
Qed.

(** C3, evaluated: task 5 has a Done run of type connect and, after it, a
    Done run of type syntax; a create for type syntax under
    [SkipIfAlreadyDone] returns the connect run, not the syntax run. *)
Theorem skip_returns_done_of_other_type :
  CreateTaskCheckRunIfNeeded Scenario.FormatError Scenario.backend
    [Scenario.a_run 1 Scenario.connect TaskCheckRunDone;
     Scenario.a_run 2 Scenario.syntax TaskCheckRunDone]
    (Scenario.a_create Scenario.syntax true)
  = {| table := [Scenario.a_run 1 Scenario.connect TaskCheckRunDone;
                 Scenario.a_run 2 Scenario.syntax TaskCheckRunDone];
       logged := [];
       returned := Ok (Scenario.a_run 1 Scenario.connect TaskCheckRunDone) |}
  /\ Scenario.a_run 1 Scenario.connect TaskCheckRunDone
     <> Scenario.a_run 2 Scenario.syntax TaskCheckRunDone.
Proof.
  split; [reflexivity | discriminate].
Qed.

(** ** The SQL task executor *)

Import Db Server.

(** Splits on the innermost [match] of the goal, so that the steps of
    [RunOnce] are taken in program order. *)
Ltac inner_case :=
  match goal with
  | |- context [match ?x with _ => _ end] =>
      lazymatch x with
      | context [match _ with _ => _ end] => fail
      | _ => destruct x eqn:?
      end
  end; cbn beta iota.

Ltac open_RunOnce := unfold RunOnce, finish, bind, ret, stop, emit.

Lemma MigrationType_eqb_eq (a b : MigrationType) :
  MigrationType_eqb a b = true <-> a = b.
Proof. destruct a, b; simpl; split; congruence. Qed.

(** The test [mi.Type != db.Baseline && sql == ""]. *)
Lemma rejected_iff (mi : MigrationInfo) (sql : string) :
  negb (MigrationType_eqb (mi_Type mi) Baseline) && String.eqb sql "" = true
  <-> mi_Type mi <> Baseline /\ sql = ""%string.
Proof.
  rewrite andb_true_iff, negb_true_iff, String.eqb_eq.
  split; intros [H1 H2]; split; try assumption.
  - intros Hb. apply MigrationType_eqb_eq in Hb. congruence.
  - destruct (MigrationType_eqb (mi_Type mi) Baseline) eqn:Hb; [|reflexivity].
    apply MigrationType_eqb_eq in Hb. contradiction.
Qed.

Section ExecutorFacts.

Variable E : Type.
Variable w : World E.
Variable task : Task.

Lemma RunOnce_malformed (e : E) :
  Unmarshal w (task_Payload task) = inl e ->
  RunOnce w task
  = {| terminated := true;
       err := Some (Errorf "invalid schema update payload: %w" [] (Some e));
       trace := [] |}.
Proof.
  intros Hu. open_RunOnce. now rewrite Hu.
Qed.

Lemma RunOnce_unparsed (payload : TaskDatabaseSchemaUpdatePayload) (e : E) :
  Unmarshal w (task_Payload task) = inr payload ->
  migrationInfoOf w payload = inl e ->
  RunOnce w task
  = {| terminated := true;
       err := Some (Errorf "failed to start schema migration, error: %w"
                      [] (Some e));
       trace := [] |}.
Proof.
  intros Hu Hm. open_RunOnce. rewrite Hu. cbn beta iota.
  unfold migrationInfoOf in Hm.
  destruct (payload_VCSPushEvent payload) as [ev|]; [|discriminate].
  destruct (ParseMigrationInfo w _) as [e'|parsed]; [|discriminate].
  now inversion Hm.
Qed.

Lemma RunOnce_rejects
      (payload : TaskDatabaseSchemaUpdatePayload) (mi : MigrationInfo) :
  Unmarshal w (task_Payload task) = inr payload ->
  migrationInfoOf w payload = inr mi ->
  negb (MigrationType_eqb (mi_Type mi) Baseline)
  && String.eqb (TrimSpace w (Statement payload)) "" = true ->
  RunOnce w task
  = {| terminated := true;
       err := Some (Errorf "empty sql statement" [] None);
       trace := [] |}.
Proof.
  intros Hu Hm Hr. open_RunOnce.
  rewrite Hu. cbn beta iota. unfold migrationInfoOf in Hm.
  destruct (payload_VCSPushEvent payload) as [ev|].
  - destruct (ParseMigrationInfo w _) as [e|parsed]; [discriminate|].
    inversion Hm; subst. cbn beta iota. now rewrite Hr.
  - inversion Hm; subst. cbn beta iota. now rewrite Hr.
Qed.

(** Past the test, the executor goes on to compose the task, and whatever
    error it returns is another one. *)
Lemma RunOnce_passes
      (payload : TaskDatabaseSchemaUpdatePayload) (mi : MigrationInfo) :
  Unmarshal w (task_Payload task) = inr payload ->
  migrationInfoOf w payload = inr mi ->
  negb (MigrationType_eqb (mi_Type mi) Baseline)
  && String.eqb (TrimSpace w (Statement payload)) "" = false ->
  err (RunOnce w task) <> Some (Errorf "empty sql statement" [] None)
  /\ exists rest, trace (RunOnce w task) = CallComposeTaskRelationship :: rest.
Proof.
  intros Hu Hm Hr. open_RunOnce.
  rewrite Hu. cbn beta iota. unfold migrationInfoOf in Hm.
  destruct (payload_VCSPushEvent payload) as [ev|].
  - destruct (ParseMigrationInfo w _) as [e|parsed]; [discriminate|].
    inversion Hm; subst. cbn beta iota. rewrite Hr.
    repeat inner_case; simpl; split; try discriminate; eexists; reflexivity.
  - inversion Hm; subst. cbn beta iota. rewrite Hr.
    repeat inner_case; simpl; split; try discriminate; eexists; reflexivity.
Qed.

(** C4: [RunOnce] returns terminated with the error "empty sql statement"
    exactly when the payload decodes, a migration kind is derived, that
    kind is not Baseline and the trimmed statement is empty.  A payload
    with no push event has the kind Sql, so its empty statement is always
    rejected; with the kind Baseline the executor goes past the test,
    whatever the statement. *)
Theorem RunOnce_empty_sql_statement :
  ((terminated (RunOnce w task) = true
    /\ err (RunOnce w task) = Some (Errorf "empty sql statement" [] None))
   <-> exists payload mi,
         Unmarshal w (task_Payload task) = inr payload
         /\ migrationInfoOf w payload = inr mi
         /\ mi_Type mi <> Baseline
         /\ TrimSpace w (Statement payload) = ""%string)
  /\ (forall payload,
         Unmarshal w (task_Payload task) = inr payload ->
         payload_VCSPushEvent payload = None ->
         TrimSpace w (Statement payload) = ""%string ->
         RunOnce w task
         = {| terminated := true;
              err := Some (Errorf "empty sql statement" [] None);
              trace := [] |})
  /\ (forall payload mi,
         Unmarshal w (task_Payload task) = inr payload ->
         migrationInfoOf w payload = inr mi ->
         mi_Type mi = Baseline ->
         err (RunOnce w task) <> Some (Errorf "empty sql statement" [] None)
         /\ exists rest,
             trace (RunOnce w task) = CallComposeTaskRelationship :: rest).
Proof.
  split; [split|split].
  - intros [_ Herr].
    destruct (Unmarshal w (task_Payload task)) as [e|payload] eqn:Hu.
    { rewrite (RunOnce_malformed e Hu) in Herr. discriminate. }
    destruct (migrationInfoOf w payload) as [e|mi] eqn:Hm.
    { rewrite (RunOnce_unparsed payload e Hu Hm) in Herr. discriminate. }
    destruct (negb (MigrationType_eqb (mi_Type mi) Baseline)
              && String.eqb (TrimSpace w (Statement payload)) "") eqn:Hr.
    + apply rejected_iff in Hr. destruct Hr as [Hk Hs].
      exists payload, mi. repeat split; assumption.
    + destruct (RunOnce_passes payload mi Hu Hm Hr) as [Hne _].
      contradiction.
  - intros (payload & mi & Hu & Hm & Hk & Hs).
    rewrite (RunOnce_rejects payload mi Hu Hm).
    + split; reflexivity.
    + apply rejected_iff. split; assumption.
  - intros payload Hu Hv Hs.
    apply (RunOnce_rejects payload
             {| mi_Version := ""; mi_Type := Sql; mi_Creator := "" |} Hu).
    + unfold migrationInfoOf. now rewrite Hv.
    + apply rejected_iff. split; [discriminate | exact Hs].
  - intros payload mi Hu Hm Hk.
    apply (RunOnce_passes payload mi Hu Hm).
    rewrite Hk. reflexivity.
Qed.

Lemma RunOnce_terminated : terminated (RunOnce w task) = true.
Proof.
  open_RunOnce. repeat inner_case; reflexivity.
Qed.

(** C5: whatever the task and whatever the collaborators answer, the
    first component of what [RunOnce] returns is true: on success, on a
    malformed payload, on a file name that does not parse, on an empty
    statement, on a failed connection, on a failed or negative check of
    the migration schema, and on an error handed back by a collaborator
    (composing the task, executing the statement or the migration). *)
Theorem RunOnce_always_terminated :
  terminated (RunOnce w task) = true
  /\ (err (RunOnce w task) = None
      \/ (exists e, err (RunOnce w task)
                    = Some (Errorf "invalid schema update payload: %w"
                              [] (Some e)))
      \/ (exists e, err (RunOnce w task)
                    = Some (Errorf
                              "failed to start schema migration, error: %w"
                              [] (Some e)))
      \/ err (RunOnce w task) = Some (Errorf "empty sql statement" [] None)
      \/ (exists e n u,
             err (RunOnce w task)
             = Some (Errorf "failed to connect instance: %v with user: %v. %w"
                       [n; u] (Some e)))
      \/ (exists e n,
             err (RunOnce w task)
             = Some (Errorf
                       "failed to check migration setup for instance: %v, %w"
                       [n] (Some e)))
      \/ (exists n,
             err (RunOnce w task)
             = Some (Errorf "missing migration schema for instance: %v"
                       [n] None))
      \/ (exists e, err (RunOnce w task) = Some (Foreign e))).
Proof.
  split; [apply RunOnce_terminated|].
  open_RunOnce. repeat inner_case; simpl; eauto 12.
Qed.

End ExecutorFacts.

Section PushFacts.

Variable E : Type.
Variable w : World E.
Variable task : Task.


End PushFacts.

(** ** The executor on concrete tasks *)


(** The spec's scenario [{statement: ""}] with kind Migrate: the executor
    fails with "empty sql statement" before it touches the instance. *)
Example RunOnce_empty_migrate :
  RunOnce (Scenario.world (Scenario.pushed "") Migrate false) Scenario.a_task
  = {| terminated := true;
       err := Some (Errorf "empty sql statement" [] None);
       trace := [] |}.
Proof. reflexivity. Qed.

(** The spec's scenario [{statement: ""}] with kind Baseline: the executor
    succeeds, recording the baseline through [ExecuteMigration]. *)
Example RunOnce_empty_baseline :
  RunOnce (Scenario.world (Scenario.pushed "") Baseline false) Scenario.a_task
  = {| terminated := true;
       err := None;
       trace :=
         [CallComposeTaskRelationship;
          CallOpen "MYSQL" (connectionOf Scenario.a_task);
          LogDebug "Start sql migration..." "shop" (Some Baseline) "";
          CallNeedsSetupMigration;
          CallExecuteMigration
            {| mi_Version := "1"; mi_Type := Baseline;
               mi_Creator := "alice" |} ""] |}.
Proof. reflexivity. Qed.

(** An empty statement with no push event is rejected. *)
Example RunOnce_empty_adhoc :
  RunOnce (Scenario.world (Scenario.adhoc "") Migrate false) Scenario.a_task
  = {| terminated := true;
       err := Some (Errorf "empty sql statement" [] None);
       trace := [] |}.
Proof. reflexivity. Qed.

(** ** What the create keys on *)

Section CreateKeyFacts.

Variable FormatError : Common.Error -> Common.Error.

(** Under [SkipIfAlreadyDone], when the task has a Done run, the call
    returns a Done run of the task that is in the table, writes nothing
    and logs nothing; a second call returns the same run. *)
Lemma skip_done_of_task
      (b b' : Backend) (db : Table) (create : TaskCheckRunCreate) :
  create_SkipIfAlreadyDone create = true ->
  (exists x, In x db /\ TaskId x = create_TaskId create
             /\ Status x = TaskCheckRunDone) ->
  exists r : TaskCheckRun,
    In r db
    /\ TaskId r = create_TaskId create
    /\ Status r = TaskCheckRunDone
    /\ CreateTaskCheckRunIfNeeded FormatError b db create
       = {| table := db; logged := []; returned := Ok r |}
    /\ CreateTaskCheckRunIfNeeded FormatError b'
         (table (CreateTaskCheckRunIfNeeded FormatError b db create)) create
       = {| table := db; logged := []; returned := Ok r |}.
Proof.
  intros Hskip (x & Hin & Ht & Hd).
  assert (Hx : In x (filter (matches (taskCheckRunFind create)) db)).
  { apply found_iff. repeat split; try assumption. right. now split. }
  destruct (rangeTaskCheckRunList_done _ 0%nat x Hx Hd) as [r Hr].
  assert (Hcall : forall b0,
             CreateTaskCheckRunIfNeeded FormatError b0 db create
             = {| table := db; logged := []; returned := Ok r |}).
  { intros b0. rewrite CreateTaskCheckRunIfNeeded_cases. cbv zeta.
    now rewrite Hskip, Hr. }
  destruct (rangeTaskCheckRunList_inl _ _ _ Hr) as (l1 & l2 & Hl & Hrd & _).
  assert (Hrl : In r (filter (matches (taskCheckRunFind create)) db)).
  { rewrite Hl. apply in_or_app. right. now left. }
  apply found_iff in Hrl. destruct Hrl as (Hrin & Hrt & _).
  exists r. repeat split; try assumption.
  - apply Hcall.
  - rewrite (Hcall b). simpl. apply Hcall.
Qed.

(** X2: under [SkipIfAlreadyDone], when the table holds a Done run of the
    task and the requested type, the call returns a Done run of the task
    that is in the table and inserts nothing; called again, it returns the
    same run. *)
Theorem CreateTaskCheckRunIfNeeded_skip_done_again
        (b b' : Backend) (db : Table) (create : TaskCheckRunCreate) :
  create_SkipIfAlreadyDone create = true ->
  (exists x, In x db /\ TaskId x = create_TaskId create
             /\ Type_ x = create_Type create
             /\ Status x = TaskCheckRunDone) ->
  exists r : TaskCheckRun,
    In r db
    /\ TaskId r = create_TaskId create
    /\ Status r = TaskCheckRunDone
    /\ CreateTaskCheckRunIfNeeded FormatError b db create
       = {| table := db; logged := []; returned := Ok r |}
    /\ CreateTaskCheckRunIfNeeded FormatError b'
         (table (CreateTaskCheckRunIfNeeded FormatError b db create)) create
       = {| table := db; logged := []; returned := Ok r |}.
Proof.
  intros Hskip (x & Hin & Ht & _ & Hd).
  apply skip_done_of_task; [exact Hskip|].
  exists x. repeat split; assumption.
Qed.

(** X1: when the task has no Running run and, under [SkipIfAlreadyDone],
    no Done run either, the call appends a Running run of the requested type
    with a fresh key and returns it. *)
Theorem CreateTaskCheckRunIfNeeded_inserts
        (b : Backend) (db : Table) (create : TaskCheckRunCreate) :
  running_of_task (create_TaskId create) db = [] ->
  (create_SkipIfAlreadyDone create = true ->
   forall x, In x db -> TaskId x = create_TaskId create ->
             Status x <> TaskCheckRunDone) ->
  CreateTaskCheckRunIfNeeded FormatError b db create
  = {| table := db ++ [inserted b db create];
       logged := [];
       returned := Ok (inserted b db create) |}
  /\ Status (inserted b db create) = TaskCheckRunRunning
  /\ Type_ (inserted b db create) = create_Type create
  /\ TaskId (inserted b db create) = create_TaskId create.
Proof.
  intros Hnone Hdone.
  assert (Hl : filter (matches (taskCheckRunFind create)) db = []).
  { destruct (filter (matches (taskCheckRunFind create)) db) as [|x l] eqn:Hf;
      [reflexivity|].
    assert (Hx : In x (filter (matches (taskCheckRunFind create)) db))
      by (rewrite Hf; now left).
    apply found_iff in Hx. destruct Hx as (Hin & Ht & [Hr | [Hs Hd]]).
    - assert (Hrun : In x (running_of_task (create_TaskId create) db)).
      { unfold running_of_task. apply filter_In. split; [assumption|].
        rewrite Hr, Ht, Z.eqb_refl. reflexivity. }
      rewrite Hnone in Hrun. destruct Hrun.
    - exfalso. exact (Hdone Hs x Hin Ht Hd). }
  rewrite CreateTaskCheckRunIfNeeded_cases. cbv zeta. rewrite Hl.
  destruct (create_SkipIfAlreadyDone create); repeat split.
Qed.

End CreateKeyFacts.

(** X2 on a table whose only run is Done. *)
Lemma skip_done_again_on_done_run :
  exists r : TaskCheckRun,
    CreateTaskCheckRunIfNeeded Scenario.FormatError Scenario.backend
      [Scenario.a_run 1 Scenario.syntax TaskCheckRunDone]
      (Scenario.a_create Scenario.syntax true)
    = {| table := [Scenario.a_run 1 Scenario.syntax TaskCheckRunDone];
         logged := []; returned := Ok r |}
    /\ Status r = TaskCheckRunDone.
Proof.
  destruct (CreateTaskCheckRunIfNeeded_skip_done_again
              Scenario.FormatError Scenario.backend Scenario.backend
              [Scenario.a_run 1 Scenario.syntax TaskCheckRunDone]
              (Scenario.a_create Scenario.syntax true))
    as (r & _ & _ & Hd & Hcall & _).
  - reflexivity.
  - exists (Scenario.a_run 1 Scenario.syntax TaskCheckRunDone).
    repeat split. now left.
  - exists r. split; assumption.
Defined.

(** X1 on an empty table. *)
Lemma inserts_into_empty_table :
  table (CreateTaskCheckRunIfNeeded Scenario.FormatError Scenario.backend []
           (Scenario.a_create Scenario.syntax true))
  = [inserted Scenario.backend [] (Scenario.a_create Scenario.syntax true)].
Proof.
  destruct (CreateTaskCheckRunIfNeeded_inserts
              Scenario.FormatError Scenario.backend []
              (Scenario.a_create Scenario.syntax true)) as (H & _).
  - reflexivity.
  - intros _ x [].
  - now rewrite H.
Defined.

(** ** Keys *)

Lemma next_id_above (t : Table) (x : TaskCheckRun) :
  In x t -> ID x < next_id t.
Proof.
  unfold next_id. induction t as [|y t IH]; intros Hin; [destruct Hin|].
  simpl. destruct Hin as [<-|Hin]; [lia|].
  specialize (IH Hin). lia.
Qed.

Lemma filter_id_fresh (t : Table) :
  filter (fun r => ID r =? next_id t) t = [].
Proof.
  destruct (filter (fun r => ID r =? next_id t) t) as [|x l] eqn:Hf;
    [reflexivity|].
  assert (Hx : In x (filter (fun r => ID r =? next_id t) t))
    by (rewrite Hf; now left).
  apply filter_In in Hx. destruct Hx as [Hin Heq].
  apply Z.eqb_eq in Heq. apply next_id_above in Hin. lia.
Qed.

(** The find that addresses one run by its key. *)
Lemma matches_by_id (v : Z) (r : TaskCheckRun) :
  matches {| find_ID := Some v; find_TaskId := None;
             find_StatusList := None |} r
  = (ID r =? v).
Proof. unfold matches. simpl. now rewrite !andb_true_r. Qed.

Lemma filter_by_id (v : Z) (t : Table) :
  filter (matches {| find_ID := Some v; find_TaskId := None;
                     find_StatusList := None |}) t
  = filter (fun r => ID r =? v) t.
Proof. apply filter_ext. intros r. apply matches_by_id. Qed.

Lemma distinct_ids_one_hit (v : Z) (t : Table) :
  NoDup (map ID t) ->
  (List.length (filter (fun r => (ID r =? v)%Z) t) <= 1)%nat.
Proof.
  induction t as [|x t IH]; intros Hnd; simpl; [lia|].
  inversion Hnd as [|? ? Hnotin Hnd']; subst.
  destruct (Z.eqb_spec (ID x) v) as [Heq|Hne]; [|now apply IH].
  simpl. destruct (filter (fun r => ID r =? v) t) as [|y l] eqn:Hf;
    [simpl; lia|].
  exfalso. apply Hnotin.
  assert (Hy : In y (filter (fun r => ID r =? v) t))
    by (rewrite Hf; now left).
  apply filter_In in Hy. destruct Hy as [Hin Hy].
  apply Z.eqb_eq in Hy. rewrite Heq, <- Hy. now apply in_map.
Qed.

Lemma patched_ids (patch : TaskCheckRunStatusPatch) (t : Table) :
  map ID (map (fun r => if addressed patch r then patched patch r else r) t)
  = map ID t.
Proof.
  rewrite map_map. apply map_ext. intros r.
  now destruct (addressed patch r).
Qed.

Section KeyFacts.

Variable FormatError : Common.Error -> Common.Error.

Lemma step_keeps_ids_distinct (db : Table) (op : Op) :
  NoDup (map ID db) -> NoDup (map ID (step FormatError db op)).
Proof.
  intros Hnd. destruct op as [b create | patch]; simpl.
  - destruct (CreateTaskCheckRunIfNeeded_table FormatError b db create)
      as [-> | [-> _]]; [exact Hnd|].
    rewrite map_app. simpl.
    apply NoDup_app; [exact Hnd | repeat constructor; intros [] |].
    intros a Ha [<-|[]]. apply in_map_iff in Ha.
    destruct Ha as (x & Hx & Hin). apply next_id_above in Hin. lia.
  - rewrite PatchTaskCheckRunStatus_table, patched_ids. exact Hnd.
Qed.

Lemma run_keeps_ids (ops : list Op) :
  forall db : Table,
    NoDup (map ID db) -> NoDup (map ID (run FormatError db ops)).
Proof.
  induction ops as [|op ops IH]; intros db Hnd; [exact Hnd|].
  simpl. apply IH. now apply step_keeps_ids_distinct.
Qed.

(** X3: the INSERT of [CreateTaskCheckRunTx] always succeeds on the
    table, gives the new run a key that no other row has, and a find by
    that key on the new table returns exactly the run that was returned. *)
Theorem CreateTaskCheckRunTx_then_find
        (b : Backend) (tx : Table) (create : TaskCheckRunCreate) :
  exists r : TaskCheckRun,
    CreateTaskCheckRunTx FormatError b tx create = (tx ++ [r], Ok r)
    /\ (forall x, In x tx -> ID x < ID r)
    /\ FindTaskCheckRunTx FormatError (tx ++ [r])
         {| find_ID := Some (ID r); find_TaskId := None;
            find_StatusList := None |} = Ok r
    /\ Status r = TaskCheckRunRunning
    /\ TaskId r = create_TaskId create
    /\ Type_ r = create_Type create
    /\ CreatorId r = create_CreatorId create
    /\ UpdaterId r = create_CreatorId create.
Proof.
  exists (inserted b tx create).
  split; [apply CreateTaskCheckRunTx_inserted|].
  split; [intros x Hx; simpl; now apply next_id_above|].
  split; [|repeat split].
  unfold FindTaskCheckRunTx. rewrite findTaskCheckRunList_filter.
  rewrite filter_by_id, filter_app. cbn [ID inserted].
  rewrite filter_id_fresh. cbn [filter ID app].
  now rewrite Z.eqb_refl.
Qed.

(** X4: a table whose keys are distinct keeps distinct keys under every
    sequence of creates and patches, and then no find by key answers
    ECONFLICT. *)
Theorem run_keeps_ids_distinct (db : Table) (ops : list Op) :
  NoDup (map ID db) ->
  NoDup (map ID (run FormatError db ops))
  /\ forall v : Z,
      FindTaskCheckRunTx FormatError (run FormatError db ops)
        {| find_ID := Some v; find_TaskId := None; find_StatusList := None |}
      <> Err (CommonError ECONFLICT).
Proof.
  intros Hnd. pose proof (run_keeps_ids ops db Hnd) as Hrun.
  split; [exact Hrun|]. intros v.
  unfold FindTaskCheckRunTx. rewrite findTaskCheckRunList_filter.
  rewrite filter_by_id.
  pose proof (distinct_ids_one_hit v _ Hrun) as Hle.
  destruct (filter (fun r => ID r =? v) (run FormatError db ops))
    as [|x [|y l]]; simpl in *; try discriminate; lia.
Qed.

End KeyFacts.

(** ** More on creating *)

Lemma filter_twice {A : Type} (f g : A -> bool) (l : list A) :
  filter f (filter g l) = filter (fun x => g x && f x) l.
Proof.
  induction l as [|x l IH]; [reflexivity|].
  cbn [filter]. destruct (g x); cbn [filter andb]; now rewrite IH.
Qed.

(** The Running runs among the runs found are the Running runs of the
    task. *)
Lemma running_found (create : TaskCheckRunCreate) (db : Table) :
  filter is_running (filter (matches (taskCheckRunFind create)) db)
  = running_of_task (create_TaskId create) db.
Proof.
  rewrite filter_twice. unfold running_of_task. apply filter_ext.
  intros r. unfold matches, taskCheckRunFind, is_running.
  cbn [find_ID find_TaskId find_StatusList].
  destruct (TaskId r =? create_TaskId create);
    destruct (create_SkipIfAlreadyDone create);
    destruct (Status r); reflexivity.
Qed.

(** In the branch that inserts, nothing was found. *)
Lemma nothing_found (create : TaskCheckRunCreate) (db : Table) :
  (if create_SkipIfAlreadyDone create
   then rangeTaskCheckRunList
          (filter (matches (taskCheckRunFind create)) db) 0
   else inr (List.length (filter (matches (taskCheckRunFind create)) db)))
  = inr 0%nat ->
  filter (matches (taskCheckRunFind create)) db = [].
Proof.
  intros H.
  destruct (filter (matches (taskCheckRunFind create)) db) as [|x l] eqn:Hf;
    [reflexivity|].
  exfalso.
  assert (Hx : In x (filter (matches (taskCheckRunFind create)) db))
    by (rewrite Hf; now left).
  apply found_iff in Hx. destruct Hx as (_ & _ & Hst).
  destruct (create_SkipIfAlreadyDone create); [|discriminate].
  simpl in H. destruct Hst as [Hr | [_ Hd]].
  - rewrite Hr in H. apply rangeTaskCheckRunList_inr in H.
    destruct H as [_ H]. lia.
  - rewrite Hd in H. discriminate.
Qed.

Section CreateMore.

Variable FormatError : Common.Error -> Common.Error.

(** X5: a create never changes or removes a row: the table after the call
    is the table before it, followed by nothing or by one new Running run
    of the requested task and type. *)
Theorem CreateTaskCheckRunIfNeeded_only_appends
        (b : Backend) (db : Table) (create : TaskCheckRunCreate) :
  exists added : list TaskCheckRun,
    table (CreateTaskCheckRunIfNeeded FormatError b db create) = db ++ added
    /\ (List.length added <= 1)%nat
    /\ forall r, In r added ->
                 Status r = TaskCheckRunRunning
                 /\ TaskId r = create_TaskId create
                 /\ Type_ r = create_Type create
                 /\ (forall x, In x db -> ID x < ID r)
                 /\ returned (CreateTaskCheckRunIfNeeded FormatError b db create)
                    = Ok r.
Proof.
  rewrite CreateTaskCheckRunIfNeeded_cases. cbv zeta.
  destruct (if create_SkipIfAlreadyDone create
            then rangeTaskCheckRunList _ 0
            else inr _) as [r|n].
  - exists []. simpl. rewrite app_nil_r.
    split; [reflexivity|]. split; [lia|]. intros x [].
  - destruct (0 <? n)%nat.
    + exists []. simpl. rewrite app_nil_r.
      split; [reflexivity|]. split; [lia|]. intros x [].
    + exists [inserted b db create]. simpl.
      split; [reflexivity|]. split; [lia|]. intros r [<-|[]].
      repeat split. intros x Hx. simpl. now apply next_id_above.
Qed.

(** X6: the call always returns a run, never an error and never an index
    out of range; the run is in the table after the call, belongs to the
    requested task, and is Running or, only under [SkipIfAlreadyDone],
    Done. *)
Theorem CreateTaskCheckRunIfNeeded_returns_stored_run
        (b : Backend) (db : Table) (create : TaskCheckRunCreate) :
  exists r : TaskCheckRun,
    returned (CreateTaskCheckRunIfNeeded FormatError b db create) = Ok r
    /\ In r (table (CreateTaskCheckRunIfNeeded FormatError b db create))
    /\ TaskId r = create_TaskId create
    /\ (Status r = TaskCheckRunRunning
        \/ (create_SkipIfAlreadyDone create = true
            /\ Status r = TaskCheckRunDone)).
Proof.
  rewrite CreateTaskCheckRunIfNeeded_cases. cbv zeta.
  pose proof (found_iff create db) as Hfound.
  set (l := filter (matches (taskCheckRunFind create)) db) in *.
  assert (Hhead : forall x rest, l = x :: rest ->
            In x db /\ TaskId x = create_TaskId create
            /\ (Status x = TaskCheckRunRunning
                \/ (create_SkipIfAlreadyDone create = true
                    /\ Status x = TaskCheckRunDone))).
  { intros x rest Hl. apply Hfound. rewrite Hl. now left. }
  destruct (create_SkipIfAlreadyDone create) eqn:Hskip.
  - destruct (rangeTaskCheckRunList l 0) as [r|n] eqn:Hr.
    + destruct (rangeTaskCheckRunList_inl _ _ _ Hr) as (l1 & l2 & Hl & Hd & _).
      assert (Hin : In r l) by (rewrite Hl; apply in_or_app; right; now left).
      apply Hfound in Hin. destruct Hin as (Hin & Ht & _).
      exists r. simpl. repeat split; try assumption. right. now split.
    + destruct n as [|n]; simpl.
      * exists (inserted b db create). repeat split.
        -- apply in_or_app. right. now left.
        -- now left.
      * apply rangeTaskCheckRunList_inr in Hr. destruct Hr as [_ Hr].
        destruct l as [|x rest] eqn:Hl; [simpl in Hr; lia|].
        destruct (Hhead x rest eq_refl) as (Hin & Ht & Hst).
        exists x. simpl. repeat split; assumption.
  - destruct l as [|x rest] eqn:Hl; simpl.
    + exists (inserted b db create). repeat split.
      * apply in_or_app. right. now left.
      * now left.
    + destruct (Hhead x rest eq_refl) as (Hin & Ht & Hst).
      exists x. simpl. repeat split; assumption.
Qed.

(** X7: a second call with the same create, right after the first, changes
    nothing and returns the run the first call returned: two calls in a
    row add at most one row. *)
Theorem CreateTaskCheckRunIfNeeded_twice
        (b b' : Backend) (db : Table) (create : TaskCheckRunCreate) :
  table (CreateTaskCheckRunIfNeeded FormatError b'
           (table (CreateTaskCheckRunIfNeeded FormatError b db create)) create)
  = table (CreateTaskCheckRunIfNeeded FormatError b db create)
  /\ returned (CreateTaskCheckRunIfNeeded FormatError b'
                 (table (CreateTaskCheckRunIfNeeded FormatError b db create))
                 create)
     = returned (CreateTaskCheckRunIfNeeded FormatError b db create).
Proof.
  rewrite (CreateTaskCheckRunIfNeeded_cases FormatError b db create).
  cbv zeta.
  pose proof (nothing_found create db) as Hnone.
  destruct (if create_SkipIfAlreadyDone create
            then rangeTaskCheckRunList _ 0
            else inr _) as [r|n] eqn:Hloop.
  - cbn [table returned].
    rewrite (CreateTaskCheckRunIfNeeded_cases FormatError b' db create).
    cbv zeta. rewrite Hloop. split; reflexivity.
  - destruct n as [|n].
    + cbn [Nat.ltb Nat.leb table returned].
      specialize (Hnone eq_refl).
      rewrite (CreateTaskCheckRunIfNeeded_cases FormatError b'). cbv zeta.
      rewrite filter_app, Hnone. cbn [filter app].
      assert (Hm : matches (taskCheckRunFind create) (inserted b db create)
                   = true).
      { unfold matches, taskCheckRunFind. cbn.
        rewrite Z.eqb_refl. now destruct (create_SkipIfAlreadyDone create). }
      rewrite Hm.
      destruct (create_SkipIfAlreadyDone create); split; reflexivity.
    + cbn [table returned].
      replace (0 <? S n)%nat with true by reflexivity. cbn [table returned].
      rewrite (CreateTaskCheckRunIfNeeded_cases FormatError b' db create).
      cbv zeta. rewrite Hloop.
      replace (0 <? S n)%nat with true by reflexivity.
      split; reflexivity.
Qed.

(** X8: the warning is logged only when the task has two or more Running
    runs in the table; with at most one, the call logs nothing. *)
Theorem CreateTaskCheckRunIfNeeded_warns_on_duplicates
        (b : Backend) (db : Table) (create : TaskCheckRunCreate) :
  logged (CreateTaskCheckRunIfNeeded FormatError b db create) = []
  \/ ((2 <= List.length (running_of_task (create_TaskId create) db))%nat
      /\ exists n : nat,
          (2 <= n)%nat
          /\ logged (CreateTaskCheckRunIfNeeded FormatError b db create)
             = [Warn n (create_TaskId create) (create_Type create)]).
Proof.
  rewrite CreateTaskCheckRunIfNeeded_cases. cbv zeta.
  pose proof (running_found create db) as Hrun.
  set (l := filter (matches (taskCheckRunFind create)) db) in *.
  pose proof (filter_length_le is_running l) as Hle.
  destruct (create_SkipIfAlreadyDone create) eqn:Hskip.
  - destruct (rangeTaskCheckRunList l 0) as [r|n] eqn:Hr; [now left|].
    apply rangeTaskCheckRunList_inr in Hr. destruct Hr as [_ ->].
    simpl. rewrite Hrun in *.
    destruct (0 <? _)%nat; [|now left].
    destruct (1 <? _)%nat eqn:H1; [|now left].
    apply Nat.ltb_lt in H1. right. split; [lia|].
    exists (List.length l). split; [lia | reflexivity].
  - destruct (0 <? _)%nat; [|now left]. simpl.
    destruct (1 <? _)%nat eqn:H1; [|now left].
    apply Nat.ltb_lt in H1. right.
    assert (Hall : filter is_running l = l).
    { apply forallb_filter_id. apply forallb_forall. intros x Hx.
      apply (found_iff create db) in Hx. destruct Hx as (_ & _ & [Hs|[Hs _]]).
      - unfold is_running. now rewrite Hs.
      - congruence. }
    rewrite <- Hrun, Hall. split; [lia|].
    exists (List.length l). split; [lia | reflexivity].
Qed.

End CreateMore.

(** ** More on patching *)

Lemma patched_twice (patch : TaskCheckRunStatusPatch) (r : TaskCheckRun) :
  patched patch (patched patch r) = patched patch r.
Proof. reflexivity. Qed.

Lemma addressed_patched (patch : TaskCheckRunStatusPatch) (r : TaskCheckRun) :
  addressed patch (patched patch r) = addressed patch r.
Proof. reflexivity. Qed.

Lemma filter_patched (patch : TaskCheckRunStatusPatch) (t : Table) :
  filter (addressed patch)
    (map (fun r => if addressed patch r then patched patch r else r) t)
  = map (patched patch) (filter (addressed patch) t).
Proof.
  induction t as [|r t IH]; [reflexivity|].
  cbn [map filter]. destruct (addressed patch r) eqn:Ha.
  - rewrite addressed_patched, Ha. cbn [map]. now rewrite IH.
  - rewrite Ha. exact IH.
Qed.

Section PatchMore.

Variable FormatError : Common.Error -> Common.Error.

Lemma PatchTaskCheckRunStatus_returned
      (db : Table) (patch : TaskCheckRunStatusPatch) :
  returned (PatchTaskCheckRunStatus FormatError db patch)
  = match filter (addressed patch) db with
    | x :: _ => Ok (patched patch x)
    | [] => Err (FormatError (FormatError (SqlError "sql: Rows are closed")))
    end.
Proof.
  unfold PatchTaskCheckRunStatus. rewrite PatchTaskCheckRunStatusTx_map.
  destruct (filter (addressed patch) db); reflexivity.
Qed.

(** X9: a patch whose key no run has returns the scan error and leaves the
    table as it was; a patch that returns a run returns it as written,
    with the status, comment, result and updater of the patch, under the
    key that was asked for, and that run is in the table after the call,
    in the place of a run with the same key, task and type. *)
Theorem PatchTaskCheckRunStatus_result
        (db : Table) (patch : TaskCheckRunStatusPatch) :
  (forall v, patch_ID patch = Some v ->
             (forall x, In x db -> ID x <> v) ->
             table (PatchTaskCheckRunStatus FormatError db patch) = db
             /\ returned (PatchTaskCheckRunStatus FormatError db patch)
                = Err (FormatError
                         (FormatError (SqlError "sql: Rows are closed"))))
  /\ (forall r,
         returned (PatchTaskCheckRunStatus FormatError db patch) = Ok r ->
         In r (table (PatchTaskCheckRunStatus FormatError db patch))
         /\ Status r = patch_Status patch
         /\ Comment r = patch_Comment patch
         /\ Result_ r = patch_Result patch
         /\ UpdaterId r = patch_UpdaterId patch
         /\ (forall v, patch_ID patch = Some v -> ID r = v)
         /\ exists x, In x db /\ ID x = ID r /\ TaskId x = TaskId r
                      /\ Type_ x = Type_ r).
Proof.
  rewrite PatchTaskCheckRunStatus_table, PatchTaskCheckRunStatus_returned.
  split.
  - intros v Hv Hnone.
    assert (Hf : filter (addressed patch) db = []).
    { destruct (filter (addressed patch) db) as [|x l] eqn:Hf; [reflexivity|].
      assert (Hx : In x (filter (addressed patch) db))
        by (rewrite Hf; now left).
      apply filter_In in Hx. destruct Hx as [Hin Ha].
      unfold addressed in Ha. rewrite Hv in Ha. apply Z.eqb_eq in Ha.
      now apply Hnone in Hin. }
    rewrite Hf. split; [now apply unaddressed_map | reflexivity].
  - intros r Hr.
    destruct (filter (addressed patch) db) as [|x l] eqn:Hf; [discriminate|].
    inversion Hr; subst r.
    assert (Hx : In x (filter (addressed patch) db))
      by (rewrite Hf; now left).
    apply filter_In in Hx. destruct Hx as [Hin Ha].
    split.
    { apply in_map_iff. exists x. rewrite Ha. now split. }
    repeat split.
    + intros v Hv. unfold addressed in Ha. rewrite Hv in Ha.
      now apply Z.eqb_eq in Ha.
    + exists x. repeat split. exact Hin.
Qed.

(** X10: a patch keeps the number of rows and, row by row, the key, the
    task, the type, the name, the payload and the creation columns; and
    applying the same patch a second time changes nothing more. *)
Theorem PatchTaskCheckRunStatus_keeps_identity
        (db : Table) (patch : TaskCheckRunStatusPatch) :
  List.length (table (PatchTaskCheckRunStatus FormatError db patch))
  = List.length db
  /\ map ID (table (PatchTaskCheckRunStatus FormatError db patch)) = map ID db
  /\ map TaskId (table (PatchTaskCheckRunStatus FormatError db patch))
     = map TaskId db
  /\ map Type_ (table (PatchTaskCheckRunStatus FormatError db patch))
     = map Type_ db
  /\ map Name (table (PatchTaskCheckRunStatus FormatError db patch))
     = map Name db
  /\ map Payload (table (PatchTaskCheckRunStatus FormatError db patch))
     = map Payload db
  /\ map CreatorId (table (PatchTaskCheckRunStatus FormatError db patch))
     = map CreatorId db
  /\ map CreatedTs (table (PatchTaskCheckRunStatus FormatError db patch))
     = map CreatedTs db
  /\ table (PatchTaskCheckRunStatus FormatError
              (table (PatchTaskCheckRunStatus FormatError db patch)) patch)
     = table (PatchTaskCheckRunStatus FormatError db patch).
Proof.
  rewrite !PatchTaskCheckRunStatus_table.
  repeat split;
    try (rewrite map_map; apply map_ext; intros r;
         now destruct (addressed patch r)).
  - apply length_map.
  - rewrite map_map. apply map_ext. intros r.
    destruct (addressed patch r) eqn:Ha.
    + now rewrite addressed_patched, Ha.
    + now rewrite Ha.
Qed.

(** X11: on a table with distinct keys, the run a patch by key returns is
    the run a find by that key then returns. *)
Theorem PatchTaskCheckRunStatus_then_find
        (db : Table) (patch : TaskCheckRunStatusPatch) (v : Z)
        (r : TaskCheckRun) :
  NoDup (map ID db) ->
  patch_ID patch = Some v ->
  returned (PatchTaskCheckRunStatus FormatError db patch) = Ok r ->
  FindTaskCheckRunTx FormatError
    (table (PatchTaskCheckRunStatus FormatError db patch))
    {| find_ID := Some v; find_TaskId := None; find_StatusList := None |}
  = Ok r.
Proof.
  intros Hnd Hv Hr.
  rewrite PatchTaskCheckRunStatus_returned in Hr.
  rewrite PatchTaskCheckRunStatus_table.
  unfold FindTaskCheckRunTx. rewrite findTaskCheckRunList_filter.
  rewrite filter_by_id.
  assert (Ha : forall x, addressed patch x = (ID x =? v))
    by (intros x; unfold addressed; now rewrite Hv).
  rewrite (filter_ext (fun x => ID x =? v) (addressed patch))
    by (intros x; now rewrite Ha).
  rewrite filter_patched.
  pose proof (distinct_ids_one_hit v db Hnd) as Hle.
  rewrite (filter_ext (fun x => ID x =? v) (addressed patch)) in Hle
    by (intros x; now rewrite Ha).
  destruct (filter (addressed patch) db) as [|x [|y l]];
    [discriminate | | simpl in Hle; lia].
  inversion Hr; subst. reflexivity.
Qed.

End PatchMore.

(** ** A run from its creation to the next request *)

Section LifeCycle.

Variable FormatError : Common.Error -> Common.Error.

Lemma inserts_when_nothing_found
      (b : Backend) (db : Table) (create : TaskCheckRunCreate) :
  filter (matches (taskCheckRunFind create)) db = [] ->
  CreateTaskCheckRunIfNeeded FormatError b db create
  = {| table := db ++ [inserted b db create];
       logged := [];
       returned := Ok (inserted b db create) |}.
Proof.
  intros Hl. rewrite CreateTaskCheckRunIfNeeded_cases. cbv zeta. rewrite Hl.
  now destruct (create_SkipIfAlreadyDone create).
Qed.

Lemma failed_runs_not_found (create : TaskCheckRunCreate) (db : Table) :
  (forall x, In x db -> TaskId x = create_TaskId create ->
             Status x = TaskCheckRunFailed) ->
  filter (matches (taskCheckRunFind create)) db = [].
Proof.
  intros Hfailed.
  destruct (filter (matches (taskCheckRunFind create)) db) as [|x l] eqn:Hf;
    [reflexivity|].
  assert (Hx : In x (filter (matches (taskCheckRunFind create)) db))
    by (rewrite Hf; now left).
  apply found_iff in Hx. destruct Hx as (Hin & Ht & Hst).
  specialize (Hfailed x Hin Ht).
  destruct Hst as [Hs | [_ Hs]]; congruence.
Qed.

Lemma patch_of_new_run
      (b : Backend) (db : Table) (create : TaskCheckRunCreate)
      (patch : TaskCheckRunStatusPatch) :
  patch_ID patch = Some (next_id db) ->
  map (fun r => if addressed patch r then patched patch r else r)
      (db ++ [inserted b db create])
  = db ++ [patched patch (inserted b db create)].
Proof.
  intros Hid. rewrite map_app. cbn [map]. f_equal.
  - rewrite <- (map_id db) at 2. apply map_ext_in. intros x Hx.
    unfold addressed. rewrite Hid.
    apply next_id_above in Hx.
    destruct (Z.eqb_spec (ID x) (next_id db)); [lia | reflexivity].
  - unfold addressed. rewrite Hid. cbn [ID inserted].
    now rewrite Z.eqb_refl.
Qed.

(** X12: on a table where the runs of the task, if any, are all Failed, a
    create inserts a run; after a patch of that run by its key, the next
    create returns that run, without inserting, if the patch left it
    Running or if it left it Done and the create has [SkipIfAlreadyDone];
    in every other case (Failed, or Done without the skip) the next
    create inserts a second run. *)
Theorem create_patch_create
        (b b' : Backend) (db : Table) (create : TaskCheckRunCreate)
        (patch : TaskCheckRunStatusPatch) :
  (forall x, In x db -> TaskId x = create_TaskId create ->
             Status x = TaskCheckRunFailed) ->
  patch_ID patch = Some (next_id db) ->
  table (PatchTaskCheckRunStatus FormatError
           (table (CreateTaskCheckRunIfNeeded FormatError b db create)) patch)
  = db ++ [patched patch (inserted b db create)]
  /\ CreateTaskCheckRunIfNeeded FormatError b'
       (db ++ [patched patch (inserted b db create)]) create
     = match patch_Status patch, create_SkipIfAlreadyDone create with
       | TaskCheckRunRunning, _ | TaskCheckRunDone, true =>
           {| table := db ++ [patched patch (inserted b db create)];
              logged := [];
              returned := Ok (patched patch (inserted b db create)) |}
       | _, _ =>
           {| table := (db ++ [patched patch (inserted b db create)])
                       ++ [inserted b'
                             (db ++ [patched patch (inserted b db create)])
                             create];
              logged := [];
              returned :=
                Ok (inserted b'
                      (db ++ [patched patch (inserted b db create)])
                      create) |}
       end.
Proof.
  intros Hfailed Hid.
  pose proof (failed_runs_not_found create db Hfailed) as Hnone.
  split.
  - rewrite (inserts_when_nothing_found b db create Hnone). cbn [table].
    rewrite PatchTaskCheckRunStatus_table.
    now apply patch_of_new_run.
  - rewrite CreateTaskCheckRunIfNeeded_cases. cbv zeta.
    rewrite filter_app, Hnone. cbn [app filter].
    assert (Hm : matches (taskCheckRunFind create)
                   (patched patch (inserted b db create))
                 = match patch_Status patch,
                         create_SkipIfAlreadyDone create with
                   | TaskCheckRunRunning, _ | TaskCheckRunDone, true => true
                   | _, _ => false
                   end).
    { unfold matches, taskCheckRunFind. cbn. rewrite Z.eqb_refl.
      destruct (patch_Status patch);
        destruct (create_SkipIfAlreadyDone create); reflexivity. }
    destruct (patch_Status patch) eqn:Hp;
      destruct (create_SkipIfAlreadyDone create);
      rewrite Hm;
      cbn [rangeTaskCheckRunList List.length Nat.ltb Nat.leb Status patched
           index0];
      rewrite ?Hp; reflexivity.
Qed.

(** X13: on every table reached from one with no Running run by creates
    and by patches that do not write Running, a create logs nothing. *)
Theorem no_warning_when_patches_settle
        (b : Backend) (db : Table) (ops : list Op)
        (create : TaskCheckRunCreate) :
  no_running db ->
  Forall settles ops ->
  logged (CreateTaskCheckRunIfNeeded FormatError b
            (run FormatError db ops) create) = [].
Proof.
  intros Hdb Hops.
  assert (Hone : (List.length
                    (running_of_task (create_TaskId create)
                       (run FormatError db ops)) <= 1)%nat).
  { apply run_keeps_one; [exact Hops|].
    intros t. rewrite (no_running_nil t db Hdb). simpl. lia. }
  rewrite <- running_found in Hone.
  rewrite CreateTaskCheckRunIfNeeded_cases. cbv zeta.
  pose proof (found_iff create (run FormatError db ops)) as Hfound.
  set (l := filter (matches (taskCheckRunFind create))
              (run FormatError db ops)) in *.
  destruct (create_SkipIfAlreadyDone create) eqn:Hskip.
  - destruct (rangeTaskCheckRunList l 0) as [r|n] eqn:Hr; [reflexivity|].
    apply rangeTaskCheckRunList_inr in Hr. destruct Hr as [_ ->].
    destruct (0 <? _)%nat; [|reflexivity]. simpl.
    replace (1 <? _)%nat with false; [reflexivity|].
    symmetry. apply Nat.ltb_ge. simpl. exact Hone.
  - assert (Hall : filter is_running l = l).
    { apply forallb_filter_id. apply forallb_forall. intros x Hx.
      apply Hfound in Hx. destruct Hx as (_ & _ & [Hs|[Hs _]]).
      - unfold is_running. now rewrite Hs.
      - congruence. }
    rewrite Hall in Hone.
    destruct (0 <? _)%nat; [|reflexivity]. simpl.
    replace (1 <? _)%nat with false; [reflexivity|].
    symmetry. apply Nat.ltb_ge. exact Hone.
Qed.

End LifeCycle.

(** ** More on the executor *)

Section ExecutorMore.

Variable E : Type.
Variable w : World E.
Variable task : Task.

(** X14: [RunOnce] returns before its first call to a collaborator exactly
    when its error is one of the three validation errors: the payload
    does not decode, the file name does not parse, or the statement is
    empty outside Baseline. *)
Theorem RunOnce_rejects_before_calls :
  trace (RunOnce w task) = [] <->
  ((exists e, err (RunOnce w task)
              = Some (Errorf "invalid schema update payload: %w" [] (Some e)))
   \/ (exists e, err (RunOnce w task)
                 = Some (Errorf "failed to start schema migration, error: %w"
                           [] (Some e)))
   \/ err (RunOnce w task) = Some (Errorf "empty sql statement" [] None)).
Proof.
  open_RunOnce. repeat inner_case; cbn [trace err app]; split;
    try discriminate; eauto 6;
    intros [[e' H]|[[e' H]|H]]; discriminate.
Qed.

(** X15: one call of [RunOnce] runs a statement on the target at most
    once, through [Execute] or through [ExecuteMigration], and exactly
    once when it returns no error. *)
Theorem RunOnce_executes_once :
  (List.length (filter executes (trace (RunOnce w task))) <= 1)%nat
  /\ (err (RunOnce w task) = None ->
      List.length (filter executes (trace (RunOnce w task))) = 1%nat).
Proof.
  open_RunOnce. repeat inner_case; cbn [trace err app]; (split; [simpl; lia|]);
    try discriminate; intros _; reflexivity.
Qed.

(** X16: the connection is opened only after [ComposeTaskRelationship]
    returned no error, with the engine, the credentials, the address and
    the database name of the composed task; and the driver is used only
    after [Open] returned one. *)
Theorem RunOnce_contacts_composed_target :
  (forall engine cfg,
      In (CallOpen engine cfg) (trace (RunOnce w task)) ->
      exists task',
        ComposeTaskRelationship w task [SECRET_KEY w] = (task', None)
        /\ engine = instance_Engine (database_Instance (task_Database task'))
        /\ cfg = connectionOf task')
  /\ (forall ev,
         In ev (trace (RunOnce w task)) -> uses_driver ev = true ->
         exists task' d,
           ComposeTaskRelationship w task [SECRET_KEY w] = (task', None)
           /\ Open w (instance_Engine
                        (database_Instance (task_Database task')))
                (connectionOf task') = inr d).
Proof.
  unfold connectionOf. open_RunOnce.
  repeat inner_case; cbn [trace err app]; split.
  all: try solve [ intros engine cfg Hin; simpl in Hin;
                   repeat (destruct Hin as [Hin|Hin]; try discriminate);
                   try contradiction; inversion Hin; subst; eauto ].
  all: intros ev Hin Hd; simpl in Hin;
       repeat (destruct Hin as [Hin|Hin]; try (subst ev; discriminate));
       try contradiction; eauto.
Qed.

(** X17: an error that [RunOnce] returns unwrapped is one that
    [ComposeTaskRelationship] returned, or one that [Execute] or
    [ExecuteMigration] returned for the call recorded in the trace. *)
Theorem RunOnce_foreign_error (e : E) :
  err (RunOnce w task) = Some (Foreign e) ->
  (exists task', ComposeTaskRelationship w task [SECRET_KEY w] = (task', Some e))
  \/ (exists task' d sql,
         ComposeTaskRelationship w task [SECRET_KEY w] = (task', None)
         /\ Open w (instance_Engine (database_Instance (task_Database task')))
              (connectionOf task') = inr d
         /\ In (CallExecute sql) (trace (RunOnce w task))
         /\ Execute d sql = Some e)
  \/ (exists task' d mi sql,
         ComposeTaskRelationship w task [SECRET_KEY w] = (task', None)
         /\ Open w (instance_Engine (database_Instance (task_Database task')))
              (connectionOf task') = inr d
         /\ In (CallExecuteMigration mi sql) (trace (RunOnce w task))
         /\ ExecuteMigration d mi sql = Some e).
Proof.
  unfold connectionOf. open_RunOnce.
  repeat inner_case; cbn [trace err app]; intros H; try discriminate;
    inversion H; subst.
  all: first [ left; eauto; fail
             | right; left; do 3 eexists; repeat split; try eassumption; simpl; tauto
             | right; right; do 4 eexists; repeat split; try eassumption; simpl; tauto ].
Qed.


Lemma not_rejected_iff (mi : MigrationInfo) (sql : string) :
  negb (MigrationType_eqb (mi_Type mi) Baseline) && String.eqb sql "" = false
  <-> (mi_Type mi = Baseline \/ sql <> ""%string).
Proof.
  rewrite andb_false_iff, negb_false_iff, MigrationType_eqb_eq.
  rewrite String.eqb_neq. reflexivity.
Qed.

(** X18: [RunOnce] returns no error exactly when the payload decodes, a
    migration is derived, the statement is not an empty one outside
    Baseline, the task composes, the connection opens, and then either the
    payload has no push event and [Execute] succeeds on the trimmed
    statement, or it has one, the migration schema needs no setup and
    [ExecuteMigration] succeeds. *)
Theorem RunOnce_succeeds_iff :
  err (RunOnce w task) = None <->
  exists payload mi task' d,
    Unmarshal w (task_Payload task) = inr payload
    /\ migrationInfoOf w payload = inr mi
    /\ (mi_Type mi = Baseline \/ TrimSpace w (Statement payload) <> ""%string)
    /\ ComposeTaskRelationship w task [SECRET_KEY w] = (task', None)
    /\ Open w (instance_Engine (database_Instance (task_Database task')))
         (connectionOf task') = inr d
    /\ match payload_VCSPushEvent payload with
       | None => Execute d (TrimSpace w (Statement payload)) = None
       | Some _ =>
           NeedsSetupMigration d = inr false
           /\ ExecuteMigration d mi (TrimSpace w (Statement payload)) = None
       end.
Proof.
  split.
  - unfold migrationInfoOf, connectionOf. open_RunOnce.
    repeat inner_case; cbn [trace err app]; intros H; try discriminate.
    all: match goal with
         | Hb : _ && _ = false |- _ => apply not_rejected_iff in Hb
         end.
    all: do 4 eexists; split; [reflexivity|].
    all: match goal with
         | Hv : payload_VCSPushEvent _ = _ |- _ => rewrite Hv
         end.
    all: try match goal with
             | Hp : ParseMigrationInfo _ _ = _ |- _ => rewrite Hp
             end.
    all: split; [reflexivity|]; split; [eassumption|];
      split; [reflexivity|]; split; [eassumption|]; auto.
  - intros (payload & mi & task' & d & Hu & Hm & Hk & Hc & Ho & Hx).
    apply not_rejected_iff in Hk.
    unfold migrationInfoOf, connectionOf in *. open_RunOnce.
    rewrite Hu. cbn beta iota.
    destruct (payload_VCSPushEvent payload) as [ev|].
    + destruct (ParseMigrationInfo w _) as [e|parsed]; [discriminate|].
      inversion Hm; subst mi. cbn beta iota. rewrite Hk. cbn beta iota.
      rewrite Hc. cbn beta iota. rewrite Ho. cbn beta iota.
      destruct Hx as [Hn Hx]. rewrite Hn. cbn beta iota. rewrite Hx.
      reflexivity.
    + inversion Hm; subst mi. cbn beta iota. rewrite Hk. cbn beta iota.
      rewrite Hc. cbn beta iota. rewrite Ho. cbn beta iota. rewrite Hx.
      reflexivity.
Qed.

(** X19: for a payload with no push event, [RunOnce] never checks the
    migration schema and never calls [ExecuteMigration]; if it calls
    [Execute], it is with the trimmed statement, which is not empty, on
    the driver opened for the composed task, and the error returned is the
    one [Execute] returned, or none. *)
Theorem RunOnce_adhoc (payload : TaskDatabaseSchemaUpdatePayload) :
  Unmarshal w (task_Payload task) = inr payload ->
  payload_VCSPushEvent payload = None ->
  (forall ev, In ev (trace (RunOnce w task)) ->
              ev <> CallNeedsSetupMigration
              /\ forall mi sql, ev <> CallExecuteMigration mi sql)
  /\ (forall sql,
         In (CallExecute sql) (trace (RunOnce w task)) ->
         sql = TrimSpace w (Statement payload)
         /\ sql <> ""%string
         /\ exists task' d,
             ComposeTaskRelationship w task [SECRET_KEY w] = (task', None)
             /\ Open w (instance_Engine
                          (database_Instance (task_Database task')))
                  (connectionOf task') = inr d
             /\ err (RunOnce w task)
                = match Execute d sql with
                  | Some e => Some (Foreign e)
                  | None => None
                  end).
Proof.
  intros Hu Hv. unfold connectionOf. open_RunOnce.
  rewrite Hu. cbn beta iota. rewrite Hv. cbn beta iota.
  repeat inner_case; cbn [trace err app]; split.
  all: try solve [ intros ev Hin; simpl in Hin;
                   repeat (destruct Hin as [Hin|Hin];
                           try (subst ev; split; [|intros ? ?]; discriminate));
                   contradiction ].
  all: intros sql Hin; simpl in Hin;
       repeat (destruct Hin as [Hin|Hin]; try discriminate);
       try contradiction; inversion Hin; subst sql.
  all: match goal with
       | Hb : _ && _ = false |- _ =>
           apply not_rejected_iff in Hb; cbn [mi_Type] in Hb;
           destruct Hb as [Hb|Hb]; [discriminate|]
       end.
  all: split; [reflexivity|]; split; [assumption|].
  all: do 2 eexists; split; [reflexivity|]; split; [eassumption|].
  all: match goal with
       | Hx : Execute _ _ = _ |- _ => rewrite Hx
       end; reflexivity.
Qed.

End ExecutorMore.

(** ** The added properties on concrete inputs *)

(** X4 on the sequence create, complete, create again. *)
Lemma ids_distinct_after_rerun :
  NoDup (map ID (run Scenario.FormatError [] Scenario.rerun)).
Proof.
  apply (run_keeps_ids_distinct Scenario.FormatError [] Scenario.rerun).
  simpl. constructor.
Defined.

(** X11 on a patch of run 1 of a table of two runs. *)
Lemma patch_then_find_on_paired :
  FindTaskCheckRunTx Scenario.FormatError
    (table (PatchTaskCheckRunStatus Scenario.FormatError Scenario.paired
              (Scenario.a_patch (Some 1) TaskCheckRunDone)))
    {| find_ID := Some 1; find_TaskId := None; find_StatusList := None |}
  = Ok (patched (Scenario.a_patch (Some 1) TaskCheckRunDone)
          (Scenario.a_run 1 Scenario.syntax TaskCheckRunRunning)).
Proof.
  apply (PatchTaskCheckRunStatus_then_find Scenario.FormatError
           Scenario.paired (Scenario.a_patch (Some 1) TaskCheckRunDone) 1).
  - simpl. repeat constructor; simpl; intuition discriminate.
  - reflexivity.
  - reflexivity.
Defined.

(** X12 on an empty table: the run is created, completed as Done, and
    requested again under [SkipIfAlreadyDone]. *)
Lemma create_patch_create_on_empty_table :
  CreateTaskCheckRunIfNeeded Scenario.FormatError Scenario.backend
    [patched (Scenario.a_patch (Some 1) TaskCheckRunDone)
       (inserted Scenario.backend [] (Scenario.a_create Scenario.syntax true))]
    (Scenario.a_create Scenario.syntax true)
  = {| table :=
         [patched (Scenario.a_patch (Some 1) TaskCheckRunDone)
            (inserted Scenario.backend []
               (Scenario.a_create Scenario.syntax true))];
       logged := [];
       returned :=
         Ok (patched (Scenario.a_patch (Some 1) TaskCheckRunDone)
               (inserted Scenario.backend []
                  (Scenario.a_create Scenario.syntax true))) |}.
Proof.
  destruct (create_patch_create Scenario.FormatError
              Scenario.backend Scenario.backend []
              (Scenario.a_create Scenario.syntax true)
              (Scenario.a_patch (Some 1) TaskCheckRunDone)) as [_ H].
  - intros x [].
  - reflexivity.
  - exact H.
Defined.

(** X13 on the sequence create, complete, create again. *)
Lemma no_warning_after_rerun :
  logged (CreateTaskCheckRunIfNeeded Scenario.FormatError Scenario.backend
            (run Scenario.FormatError [] Scenario.rerun)
            (Scenario.a_create Scenario.connect false)) = [].
Proof.
  apply (no_warning_when_patches_settle Scenario.FormatError).
  - intros r [].
  - unfold Scenario.rerun. repeat constructor. simpl. discriminate.
Defined.

(** X17 on a statement that the driver refuses. *)
Lemma foreign_error_from_execute :
  exists sql : string,
    In (CallExecute sql)
       (trace (RunOnce (Scenario.broken_world (Scenario.adhoc "select 1"))
                 Scenario.a_task))
    /\ Execute Scenario.broken_driver sql = Some "syntax error"%string.
Proof.
  destruct (RunOnce_foreign_error string
              (Scenario.broken_world (Scenario.adhoc "select 1"))
              Scenario.a_task "syntax error"%string)
    as [(task' & Hc) | [(task' & d & sql & _ & _ & Hin & _)
                       | (task' & d & mi & sql & _ & _ & Hin & _)]].
  - reflexivity.
  - discriminate Hc.
  - exists sql. split; [exact Hin | reflexivity].
  - exfalso. vm_compute in Hin. intuition discriminate.
Defined.

(** X19 on the ad-hoc statement [select 1]. *)
Lemma adhoc_select_runs_once :
  In (CallExecute "select 1")
     (trace (RunOnce (Scenario.world (Scenario.adhoc "select 1") Migrate false)
               Scenario.a_task))
  /\ "select 1"%string <> ""%string.
Proof.
  destruct (RunOnce_adhoc string
              (Scenario.world (Scenario.adhoc "select 1") Migrate false)
              Scenario.a_task (Scenario.adhoc "select 1") eq_refl eq_refl)
    as [_ H].
  assert (Hin : In (CallExecute "select 1")
                   (trace (RunOnce (Scenario.world (Scenario.adhoc "select 1")
                                      Migrate false) Scenario.a_task)))
    by (vm_compute; tauto).
  destruct (H "select 1"%string Hin) as (_ & Hne & _).
  split; assumption.
Defined.
